(** * Photo-Organizer: a shallow embedding of [main.py]

    The media pipeline of [main.py] (duplicate gate, metadata extraction,
    date and location resolution, destination building, copy or move) as
    Rocq functions over an explicit [world]: the two module-level caches
    ([processed_files], [location_cache]), the destination tree, and a trace
    of the external operations performed.

    Python floats are the kernel's binary64 floats, dictionaries with string
    keys are [gmap string _], the geocode cache (keyed by pairs of floats,
    compared with Python's [==]) is an association list.  What Python's
    libraries compute ([datetime.strptime], [float(str)], [round], MD5, the
    reverse geocoder) is a parameter of the pipeline; reference instances are
    given for evaluation. *)

From Stdlib Require Import ZArith Floats.
From Stdlib.Strings Require Import Ascii String Byte.
From stdpp Require Import gmap strings list fin_maps pretty.

#[local] Set Warnings "-register-all,-inexact-float".
#[local] Open Scope string_scope.

(** ** Python values, exceptions and builtins *)

Module Py.

(** The exception classes the source distinguishes.  [OtherException] stands
    for any other subclass of [Exception] (AttributeError, OSError, ...). *)
Inductive exc :=
| ValueError
| TypeError
| ZeroDivisionError
| OverflowError
| OtherException.

(** The outcome of an expression that may raise. *)
Inductive result (A : Type) :=
| Ok (a : A)
| Raise (e : exc).
Arguments Ok {A} a.
Arguments Raise {A} e.

Definition bind {A B} (r : result A) (k : A -> result B) : result B :=
  match r with
  | Ok a => k a
  | Raise e => Raise e
  end.

(** Values found in tag dictionaries.  [PObj truth as_float] is any other
    object (for instance PIL's rational type), known by its truth value and
    by what [float()] does on it. *)
Inductive val :=
| PNone
| PStr (s : string)
| PInt (z : Z)
| PFloat (x : float)
| PTuple (items : list val)
| PList (items : list val)
| PDict (d : gmap string val)
| PObj (truth : bool) (as_float : result float).

(** [bool(v)]: Python truthiness. *)
Definition truthy (v : val) : bool :=
  match v with
  | PNone => false
  | PStr s => negb (String.eqb s "")
  | PInt z => negb (z =? 0)%Z
  | PFloat x => negb (x =? 0)%float
  | PTuple items | PList items => negb (bool_decide (items = []))
  | PDict d => negb (bool_decide (d = ∅))
  | PObj truth _ => truth
  end.

(** [float(n)] for an [int]: correctly rounded, OverflowError when the
    result does not fit a binary64. *)
Definition int_to_float (z : Z) : result float :=
  match binary_normalize prec emax z 0 false with
  | S754_infinity _ => Raise OverflowError
  | sf => Ok (SF2Prim sf)
  end.



(** [isinstance(v, (list, tuple))] together with the items. *)
Definition as_sequence (v : val) : option (list val) :=
  match v with
  | PTuple items | PList items => Some items
  | _ => None
  end.

(** [v == 'S'] and the like: only a [str] equals a [str]. *)
Definition eq_str (v : val) (s : string) : bool :=
  match v with
  | PStr s' => String.eqb s' s
  | _ => false
  end.

(** [bool(x)] for [x] a float or [None]. *)
Definition truthy_float (x : option float) : bool :=
  match x with
  | Some x => negb (x =? 0)%float
  | None => false
  end.

End Py.
Export Py.

Notation "x <- r ;; k" := (Py.bind r (fun x => k))
  (at level 100, r at next level, right associativity).

(** ** String methods and path parts *)

Module PyStr.

(** [sub in s] *)
Fixpoint contains (sub s : string) : bool :=
  String.prefix sub s ||
  match s with
  | EmptyString => false
  | String _ rest => contains sub rest
  end.

Fixpoint drop (n : nat) (s : string) : string :=
  match n, s with
  | O, _ => s
  | S n', String _ rest => drop n' rest
  | S _, EmptyString => EmptyString
  end.

Fixpoint take (n : nat) (s : string) : string :=
  match n, s with
  | S n', String a rest => String a (take n' rest)
  | _, _ => EmptyString
  end.

(** [s.split(sep, 1)[1]]: what follows the first occurrence of [sep];
    [None] is the IndexError raised when [sep] does not occur. *)
Fixpoint split_once_tail (sep s : string) : option string :=
  if String.prefix sep s then Some (drop (String.length sep) s)
  else match s with
       | EmptyString => None
       | String _ rest => split_once_tail sep rest
       end.

(** [s.split(c)[0]] for a one-character separator. *)
Fixpoint split_head (c : ascii) (s : string) : string :=
  match s with
  | EmptyString => EmptyString
  | String a rest => if Ascii.eqb a c then EmptyString else String a (split_head c rest)
  end.

(** [s.replace(c, by)] for a one-character pattern. *)
Fixpoint replace (c : ascii) (by_ : string) (s : string) : string :=
  match s with
  | EmptyString => EmptyString
  | String a rest =>
      if Ascii.eqb a c then by_ +:+ replace c by_ rest
      else String a (replace c by_ rest)
  end.

Definition lower_ascii (a : ascii) : ascii :=
  let n := nat_of_ascii a in
  if ((65 <=? n) && (n <=? 90))%nat then ascii_of_nat (n + 32) else a.

(** [s.lower()].  Text is a sequence of one-byte characters here, so only
    the letters A to Z change; the letters outside ASCII that [str.lower]
    maps as well cannot be written. *)
Fixpoint lower (s : string) : string :=
  match s with
  | EmptyString => EmptyString
  | String a rest => String (lower_ascii a) (lower rest)
  end.

(** [s.rfind('.')], as an index from the left. *)
Fixpoint rfind_dot (s : string) : option nat :=
  match s with
  | EmptyString => None
  | String a rest =>
      match rfind_dot rest with
      | Some i => Some (S i)
      | None => if Ascii.eqb a "." then Some 0 else None
      end
  end.

(** [Path(p).suffix] and [Path(p).stem], from the final component [name]:
    the suffix starts at the last dot unless that dot is the first or the
    last character of the name. *)
Definition suffix_start (name : string) : option nat :=
  match rfind_dot name with
  | Some i => if ((0 <? i) && (i <? String.length name - 1))%nat then Some i else None
  | None => None
  end.

Definition path_suffix (name : string) : string :=
  match suffix_start name with
  | Some i => drop i name
  | None => ""
  end.

Definition path_stem (name : string) : string :=
  match suffix_start name with
  | Some i => take i name
  | None => name
  end.

(** [Path(a) / b] and [os.path.join(a, b)] as text, for [a] without a
    trailing separator and a relative, non-empty [b]: the two joined by one
    separator.  pathlib would also collapse repeated separators and [.]
    components of [a], and return [b] alone when [b] is absolute; the paths
    of this development are compared as the text built here. *)
Definition join (a b : string) : string := a +:+ "/" +:+ b.

End PyStr.

(** ** Calendar timestamps *)

Record datetime := {
  year : N;
  month : N;
  day : N;
  hour : N;
  minute : N;
  second : N
}.

(** [strftime('%B')] in the C locale. *)
Definition month_name (m : N) : string :=
  match m with
  | 1 => "January" | 2 => "February" | 3 => "March" | 4 => "April"
  | 5 => "May" | 6 => "June" | 7 => "July" | 8 => "August"
  | 9 => "September" | 10 => "October" | 11 => "November" | _ => "December"
  end%N.

(** [f"{n:02d}"] *)
Definition two_digits (n : N) : string :=
  if (n <? 10)%N then "0" +:+ pretty n else pretty n.

(** ** Reference instances of the library functions

    The pipeline below takes [datetime.strptime], [round(x, 3)], the digest
    and the geocoder as parameters.  The instances of this module follow the
    documented behaviour of the Python library on ASCII input and are used to
    evaluate the pipeline on concrete files. *)

Module Ref.

Definition is_digit (a : ascii) : bool :=
  let n := nat_of_ascii a in ((48 <=? n) && (n <=? 57))%nat.

Definition digit (a : ascii) : N := N_of_ascii a - 48.

(** The characters the pattern [\s] accepts. *)
Definition is_space (a : ascii) : bool :=
  let n := nat_of_ascii a in
  (((9 <=? n) && (n <=? 13)) || ((28 <=? n) && (n <=? 32)))%nat.

(** A numeric directive whose pattern lists its two-digit alternatives
    before the one-digit one: the first alternative that matches is taken. *)
Definition number (two : N -> N -> bool) (one : N -> bool) (s : string)
  : option (N * string) :=
  match s with
  | String a (String b rest) =>
      if is_digit a && is_digit b && two (digit a) (digit b)
      then Some (10 * digit a + digit b, rest)%N
      else if is_digit a && one (digit a) then Some (digit a, String b rest)
      else None
  | String a EmptyString =>
      if is_digit a && one (digit a) then Some (digit a, EmptyString) else None
  | EmptyString => None
  end.

(** [%Y]: exactly four digits. *)
Definition number4 (s : string) : option (N * string) :=
  match s with
  | String a (String b (String c (String d rest))) =>
      if is_digit a && is_digit b && is_digit c && is_digit d
      then Some (1000 * digit a + 100 * digit b + 10 * digit c + digit d, rest)%N
      else None
  | _ => None
  end.

(** [%m]: 1[0-2] | 0[1-9] | [1-9] *)
Definition directive_m : string -> option (N * string) :=
  number (fun a b => ((a =? 1) && (b <=? 2)) || ((a =? 0) && (1 <=? b)))%N
         (fun a => (1 <=? a)%N).

(** [%d]: 3[01] | [12]\d | 0[1-9] | [1-9] | space [1-9] *)
Definition directive_d (s : string) : option (N * string) :=
  match number (fun a b => ((a =? 3) && (b <=? 1)) || (a =? 1) || (a =? 2)
                           || ((a =? 0) && (1 <=? b)))%N
               (fun a => (1 <=? a)%N) s with
  | Some r => Some r
  | None =>
      match s with
      | String " " (String b rest) =>
          if is_digit b && (1 <=? digit b)%N then Some (digit b, rest) else None
      | _ => None
      end
  end.

(** [%H]: 2[0-3] | [01]\d | \d *)
Definition directive_H : string -> option (N * string) :=
  number (fun a b => ((a =? 2) && (b <=? 3)) || (a <=? 1))%N (fun _ => true).

(** [%M]: [0-5]\d | \d *)
Definition directive_M : string -> option (N * string) :=
  number (fun a _ => (a <=? 5)%N) (fun _ => true).

(** [%S]: 6[01] | [0-5]\d | \d *)
Definition directive_S : string -> option (N * string) :=
  number (fun a b => ((a =? 6) && (b <=? 1)) || (a <=? 5))%N (fun _ => true).

Definition is_leap (y : N) : bool :=
  ((y mod 4 =? 0) && (negb (y mod 100 =? 0) || (y mod 400 =? 0)))%N.

Definition days_in_month (y m : N) : N :=
  match m with
  | 2 => if is_leap y then 29 else 28
  | 4 | 6 | 9 | 11 => 30
  | _ => 31
  end%N.

(** What the [datetime] constructor accepts. *)
Definition valid_datetime (d : datetime) : bool :=
  ((1 <=? year d) && (year d <=? 9999) && (1 <=? month d) && (month d <=? 12)
   && (1 <=? day d) && (day d <=? days_in_month (year d) (month d))
   && (hour d <=? 23) && (minute d <=? 59) && (second d <=? 59))%N.

Fixpoint skip_spaces (s : string) : string :=
  match s with
  | String a rest => if is_space a then skip_spaces rest else s
  | EmptyString => EmptyString
  end.

(** Matches [s] against [fmt], left to right.  Every directive of the formats
    used by the pipeline is followed by a literal that is not a digit or by
    the end of the text, so taking the first matching alternative of each
    directive loses no match.  Literals compare ignoring case, a blank in the
    format accepts one or more blanks, text left over is a failure. *)
Fixpoint scan (fmt s : string) (acc : datetime) : option datetime :=
  match fmt with
  | EmptyString => if String.eqb s "" then Some acc else None
  | String "%" (String c fmt') =>
      let continue (r : option (N * string)) (set : N -> datetime) :=
        match r with
        | Some (n, rest) => scan fmt' rest (set n)
        | None => None
        end in
      if Ascii.eqb c "Y" then
        continue (number4 s) (fun n => {| year := n; month := month acc; day := day acc;
           hour := hour acc; minute := minute acc; second := second acc |})
      else if Ascii.eqb c "m" then
        continue (directive_m s) (fun n => {| year := year acc; month := n; day := day acc;
           hour := hour acc; minute := minute acc; second := second acc |})
      else if Ascii.eqb c "d" then
        continue (directive_d s) (fun n => {| year := year acc; month := month acc; day := n;
           hour := hour acc; minute := minute acc; second := second acc |})
      else if Ascii.eqb c "H" then
        continue (directive_H s) (fun n => {| year := year acc; month := month acc; day := day acc;
           hour := n; minute := minute acc; second := second acc |})
      else if Ascii.eqb c "M" then
        continue (directive_M s) (fun n => {| year := year acc; month := month acc; day := day acc;
           hour := hour acc; minute := n; second := second acc |})
      else if Ascii.eqb c "S" then
        continue (directive_S s) (fun n => {| year := year acc; month := month acc; day := day acc;
           hour := hour acc; minute := minute acc; second := n |})
      else None
  | String c fmt' =>
      match s with
      | String a rest =>
          if is_space c then
            if is_space a then scan fmt' (skip_spaces rest) acc else None
          else if Ascii.eqb (PyStr.lower_ascii a) (PyStr.lower_ascii c)
               then scan fmt' rest acc else None
      | EmptyString => None
      end
  end.

(** [datetime.strptime(s, fmt)]; [None] is ValueError. *)
Definition strptime (s fmt : string) : option datetime :=
  match scan fmt s {| year := 1900; month := 1; day := 1;
                      hour := 0; minute := 0; second := 0 |}%N with
  | Some d => if valid_datetime d then Some d else None
  | None => None
  end.

(** [round(x, 3)]: the exact value of [x] rounded half to even at the third
    decimal, then the binary64 nearest to that decimal.  Infinities and NaN
    are returned unchanged. *)
Definition round_half_even (k : Z) (e : Z) : Z :=
  if (0 <=? e)%Z then (k * 2 ^ e)%Z
  else
    let d := (2 ^ (- e))%Z in
    let q := (k / d)%Z in
    let r := (k mod d)%Z in
    match (2 * r ?= d)%Z with
    | Lt => q
    | Gt => (q + 1)%Z
    | Eq => if Z.even q then q else (q + 1)%Z
    end.

Definition round3 (x : float) : float :=
  match Prim2SF x with
  | S754_finite s m e =>
      match round_half_even (Z.pos m * 1000) e with
      | Z.pos n => SF2Prim (SFdiv prec emax (S754_finite s n 0) (S754_finite false 1000 0))
      | _ => SF2Prim (S754_zero s)
      end
  | _ => x
  end.

(** [float(text)] on plain decimal literals: an optional sign, digits, and
    optionally a point followed by digits; the value is the binary64 nearest
    to the decimal.  The other spellings Python accepts (exponents, [inf],
    [nan], blanks, underscores) are outside this instance. *)
Fixpoint digits (s : string) (n : Z) (count : nat) : option (Z * nat * string) :=
  match s with
  | String a rest =>
      if is_digit a then digits rest (10 * n + Z.of_N (digit a))%Z (S count)
      else Some (n, count, s)
  | EmptyString => Some (n, count, s)
  end.

Definition decimal (s : string) : option (Z * nat) :=
  match digits s 0 0 with
  | Some (n, count, EmptyString) => if (0 <? count)%nat then Some (n, 0%nat) else None
  | Some (n, count, String "." rest) =>
      match digits rest n 0 with
      | Some (n', places, EmptyString) =>
          if (0 <? count + places)%nat then Some (n', places) else None
      | _ => None
      end
  | _ => None
  end.

Definition float_of_str (s : string) : option float :=
  let '(negative, body) :=
    match s with
    | String "-" rest => (true, rest)
    | String "+" rest => (false, rest)
    | _ => (false, s)
    end in
  match decimal body with
  | Some (Z.pos n, places) =>
      Some (SF2Prim (SFdiv prec emax (S754_finite negative n 0)
                       (S754_finite false (Z.to_pos (10 ^ Z.of_nat places)) 0)))
  | Some (_, _) => Some (SF2Prim (S754_zero negative))
  | None => None
  end.

(** A stand-in for MD5's hexadecimal digest: thirty-two characters that
    depend on the content only.  It is not collision resistant. *)
Definition hexdigest (content : list byte) : string :=
  let n := pretty (foldr (fun b acc => (Byte.to_N b + 31 * acc) mod 1000000007)%N
                         (N.of_nat (length content)) content) in
  PyStr.take 32 (n +:+ "00000000000000000000000000000000").

End Ref.

(** ** The environment of a run *)

(** What PIL yields for an image: [image._getexif()] with the tag numbers
    already decoded through [TAGS]/[GPSTAGS].  [Raise] is an exception of
    [Image.open] or of the tag directory, [Ok None] an image without EXIF. *)
Definition exif_outcome := result (option (gmap string val)).

(** What hachoir yields for a video: an exception, no parser, no metadata, or
    the lines of [metadata.exportPlaintext()]. *)
Inductive video_outcome :=
| VideoRaise
| VideoNoParser
| VideoNoMetadata
| VideoLines (lines : list string).

(** What [geolocator.reverse] yields: an exception, [None], or a location
    with its [raw] dictionary. *)
Inductive geo_reply :=
| GeoRaise
| GeoNone
| GeoLocation (raw : gmap string val).

(** A file of the source tree as the pipeline sees it through the operating
    system and the media libraries. *)
Record media_file := {
  file_dir : string;                  (* os.walk's root *)
  file_name : string;                 (* Path(file_path).name *)
  file_bytes : list byte;             (* the content *)
  read_fault : bool;                  (* open/read raises while hashing *)
  image_exif : exif_outcome;
  video_meta : video_outcome;
  creation_time : option datetime;    (* os.path.getctime; None when it raises *)
  write_fault : bool;                 (* mkdir, copy2 or move raises *)
  fault_leaves : option nat           (* then: the bytes that had reached the
                                         target, None if it was not created *)
}.

Definition file_path (f : media_file) : string :=
  PyStr.join (file_dir f) (file_name f).

(** The external operations a run performs, newest first in [trace]. *)
Inductive event :=
| EExif (path : string)               (* get_exif_data opened the image *)
| EVideo (path : string)              (* get_video_metadata was called *)
| EGeocode (lat lon : float)          (* geolocator.reverse((lat, lon)) *)
| ESleep                              (* sleep(1) *)
| ECopy (src dst : string)            (* shutil.copy2 completed *)
| EMove (src dst : string).           (* shutil.move completed *)

(** The module-level state and the destination tree.  [dest_tree] maps the
    paths that exist below the output directory to their content; paths are
    kept as joined text, directories are not tracked (a failing [mkdir] is
    part of [write_fault]), and nothing but the run changes the tree.  The
    source files are not part of the world: each [media_file] carries its own
    content, and the source directory is taken to lie outside the output
    directory. *)
Record world := {
  location_cache : list (float * float * string);
  processed_files : gset string;
  dest_tree : gmap string (list byte);
  trace : list event
}.

Definition log (e : event) (w : world) : world :=
  {| location_cache := location_cache w;
     processed_files := processed_files w;
     dest_tree := dest_tree w;
     trace := e :: trace w |}.

Definition geocode_requests (t : list event) : list (float * float) :=
  omap (fun e => match e with EGeocode lat lon => Some (lat, lon) | _ => None end) t.

Definition written_paths (t : list event) : list string :=
  omap (fun e => match e with
                 | ECopy _ dst | EMove _ dst => Some dst
                 | _ => None
                 end) t.

(** Supported file extensions *)
Definition PHOTO_EXTENSIONS : list string :=
  [".jpg"; ".jpeg"; ".png"; ".tiff"; ".tif"; ".bmp"; ".gif"].
Definition VIDEO_EXTENSIONS : list string :=
  [".mp4"; ".mov"; ".avi"; ".mkv"; ".wmv"; ".flv"; ".webm"; ".m4v"; ".3gp"].
Definition IPHONE_EXTENSIONS : list string := [".heic"; ".heif"].
Definition SUPPORTED_EXTENSIONS : list string :=
  PHOTO_EXTENSIONS ++ VIDEO_EXTENSIONS ++ IPHONE_EXTENSIONS.

(** Dictionary access: [d.get(k)] and [d.get(k, default)]. *)
Definition dict_get (d : gmap string val) (k : string) : val :=
  default PNone (d !! k).

Definition dict_get_default (d : gmap string val) (k : string) (dflt : val) : val :=
  default dflt (d !! k).

(** [v.get(...)] needs a dictionary: anything else raises AttributeError. *)
Definition as_dict (v : val) : result (gmap string val) :=
  match v with
  | PDict d => Ok d
  | _ => Raise OtherException
  end.

(** The geocode cache is a [dict] keyed by pairs of floats: keys are compared
    with Python's [==], under which 0.0 equals -0.0 and NaN differs from
    itself. *)
Definition key_eqb (k1 k2 : float * float) : bool :=
  (k1.1 =? k2.1)%float && (k1.2 =? k2.2)%float.

(** [key in cache] and [cache[key]] *)
Fixpoint cache_lookup (key : float * float) (c : list (float * float * string))
  : option string :=
  match c with
  | [] => None
  | (k, name) :: rest => if key_eqb k key then Some name else cache_lookup key rest
  end.

(** [cache[key] = name]: an equal key keeps its slot, a new one is appended. *)
Fixpoint cache_store (key : float * float) (name : string)
  (c : list (float * float * string)) : list (float * float * string) :=
  match c with
  | [] => [(key, name)]
  | (k, old) :: rest =>
      if key_eqb k key then (k, name) :: rest
      else (k, old) :: cache_store key name rest
  end.

(** ** Sample data *)

Module Sample.

Definition fresh_world : world :=
  {| location_cache := []; processed_files := ∅; dest_tree := ∅; trace := [] |}.

Definition timestamp : datetime :=
  {| year := 2021; month := 3; day := 4; hour := 5; minute := 6; second := 7 |}.

(** A readable, writable file without embedded metadata. *)
Definition plain_file (name : string) (content : list byte) : media_file :=
  {| file_dir := "photos"; file_name := name; file_bytes := content;
     read_fault := false; image_exif := Ok None; video_meta := VideoNoParser;
     creation_time := Some timestamp; write_fault := false; fault_leaves := None |}.

Definition content_a : list byte := [Byte.x01; Byte.x02; Byte.x03].

(** A geocoder that answers every request with the same address. *)
Definition geocoder (_ : nat) (_ _ : float) : geo_reply :=
  GeoLocation {[ "address" :=
    PDict (<["city" := PStr "Paris"]> {[ "country" := PStr "France" ]}) ]}.

(** The digest of an unreadable file cannot be computed. *)
Definition unreadable_file (name : string) (content : list byte) : media_file :=
  {| file_dir := "photos"; file_name := name; file_bytes := content;
     read_fault := true; image_exif := Ok None; video_meta := VideoNoParser;
     creation_time := Some timestamp; write_fault := false; fault_leaves := None |}.

(** Tags with a generic and a digitized timestamp, and with all three. *)
Definition exif_generic_digitized : gmap string val :=
  <["DateTime" := PStr "2021:06:15 10:00:00"]>
    {[ "DateTimeDigitized" := PStr "2020:01:01 09:00:00" ]}.

Definition exif_three_dates : gmap string val :=
  <["DateTimeOriginal" := PStr "2019:12:24 18:30:00"]> exif_generic_digitized.

Definition generic_date : datetime :=
  {| year := 2021; month := 6; day := 15; hour := 10; minute := 0; second := 0 |}.
Definition digitized_date : datetime :=
  {| year := 2020; month := 1; day := 1; hour := 9; minute := 0; second := 0 |}.
Definition original_date : datetime :=
  {| year := 2019; month := 12; day := 24; hour := 18; minute := 30; second := 0 |}.

(** GPS tags: 10 degrees south, 20 degrees east. *)
Definition gps_south_east : gmap string val :=
  <["GPSLatitudeRef" := PStr "S"]>
    (<["GPSLatitude" := PTuple [PInt 10; PInt 0; PInt 0]]>
       (<["GPSLongitudeRef" := PStr "E"]>
          {[ "GPSLongitude" := PTuple [PInt 20; PInt 0; PInt 0] ]})).

Definition exif_south_east : gmap string val :=
  {[ "GPSInfo" := PDict gps_south_east ]}.



(** A photo on the equator, 20 degrees east. *)
Definition gps_equator : gmap string val :=
  <["GPSLatitude" := PTuple [PInt 0; PInt 0; PInt 0]]>
    {[ "GPSLongitude" := PTuple [PInt 20; PInt 0; PInt 0] ]}.

Definition equator_photo : media_file :=
  {| file_dir := "photos"; file_name := "equator.jpg"; file_bytes := content_a;
     read_fault := false;
     image_exif := Ok (Some {[ "GPSInfo" := PDict gps_equator ]});
     video_meta := VideoNoParser;
     creation_time := Some timestamp; write_fault := false; fault_leaves := None |}.

(** Three different photos, all named img.jpg, from three folders. *)
Definition img_file (dir : string) (content : list byte) : media_file :=
  {| file_dir := dir; file_name := "img.jpg"; file_bytes := content;
     read_fault := false; image_exif := Ok None; video_meta := VideoNoParser;
     creation_time := Some timestamp; write_fault := false; fault_leaves := None |}.

Definition img_files : list media_file :=
  [img_file "a" [Byte.x01]; img_file "b" [Byte.x02]; img_file "c" [Byte.x03]].

(** A video whose exported metadata has two date lines. *)
Definition video_lines : list string :=
  ["Metadata:";
   "- Duration: 12 sec";
   "- Creation date: 2020-01-01 10:00:00";
   "- Date-time original: 2019-05-05 08:00:00";
   "- Comment: none"].

Definition video_file : media_file :=
  {| file_dir := "videos"; file_name := "clip.mp4"; file_bytes := content_a;
     read_fault := false; image_exif := Ok None; video_meta := VideoLines video_lines;
     creation_time := Some timestamp; write_fault := false; fault_leaves := None |}.

End Sample.

(** ** More sample data *)

Module SampleMore.

(** GPS tags whose latitude degrees exceed the binary64 range. *)
Definition gps_huge_latitude : gmap string val :=
  <["GPSLatitude" := PTuple [PInt (2 ^ 1024); PInt 0; PInt 0]]>
    {[ "GPSLongitude" := PTuple [PInt 20; PInt 0; PInt 0] ]}.

Definition exif_huge_latitude : gmap string val :=
  {[ "GPSInfo" := PDict gps_huge_latitude ]}.

(** GPS tags with a decimal latitude of zero. *)
Definition gps_zero_latitude : gmap string val :=
  <["GPSLatitude" := PFloat 0]> {[ "GPSLongitude" := PFloat 20 ]}.

Definition exif_zero_latitude : gmap string val :=
  {[ "GPSInfo" := PDict gps_zero_latitude ]}.

(** A file whose creation time cannot be read. *)
Definition timeless_file : media_file :=
  {| file_dir := "photos"; file_name := "old.jpg"; file_bytes := Sample.content_a;
     read_fault := false; image_exif := Ok None; video_meta := VideoNoParser;
     creation_time := None; write_fault := false; fault_leaves := None |}.

(** A file that cannot be written: the target is never created. *)
Definition unwritable_file (name : string) (content : list byte) : media_file :=
  {| file_dir := "photos"; file_name := name; file_bytes := content;
     read_fault := false; image_exif := Ok None; video_meta := VideoNoParser;
     creation_time := Some Sample.timestamp; write_fault := true; fault_leaves := None |}.

(** A file whose copy breaks off after [n] bytes. *)
Definition truncated_file (name : string) (content : list byte) (n : nat)
  : media_file :=
  {| file_dir := "photos"; file_name := name; file_bytes := content;
     read_fault := false; image_exif := Ok None; video_meta := VideoNoParser;
     creation_time := Some Sample.timestamp;
     write_fault := true; fault_leaves := Some n |}.

Definition content_b : list byte := [Byte.x0a; Byte.x0b].





(** GPS tags whose latitude is an object with a conversion of its own that
    raises some other exception. *)
Definition gps_broken_latitude : gmap string val :=
  <["GPSLatitude" := PObj true (Raise OtherException)]>
    {[ "GPSLongitude" := PTuple [PInt 20; PInt 0; PInt 0] ]}.

Definition exif_broken_latitude : gmap string val :=
  {[ "GPSInfo" := PDict gps_broken_latitude ]}.

(** A geocoder whose answer has no address. *)
Definition bare_geocoder (_ : nat) (_ _ : float) : geo_reply :=
  GeoLocation {[ "display_name" := PStr "somewhere" ]}.

(** A geocoder whose answers change with every request. *)
Definition fickle_geocoder (n : nat) (_ _ : float) : geo_reply :=
  match n with
  | O => GeoLocation {[ "address" :=
           PDict (<["town" := PStr "Saint Malo"]> {[ "country" := PStr "France" ]}) ]}
  | _ => GeoRaise
  end.

End SampleMore.

(** ** The pipeline of [main.py] *)

Section Pipeline.

(** [datetime.strptime(text, format)]; [None] when it raises. *)
Variable strptime : string -> string -> option datetime.
(** [float(text)] for a [str]; [None] is ValueError. *)
Variable float_of_str : string -> option float.
(** [round(x, 3)] *)
Variable round3 : float -> float.
(** [hashlib.md5(content).hexdigest()] *)
Variable md5_hexdigest : list byte -> string.
(** [geolocator.reverse((lat, lon), language='en')]; the first argument is
    the number of requests issued earlier in the run. *)
Variable geolocator_reverse : nat -> float -> float -> geo_reply.
(** Whether hachoir could be imported. *)
Variable HACHOIR_SUPPORT : bool.

(** [float(v)] *)
Definition py_float (v : val) : result float :=
  match v with
  | PFloat x => Ok x
  | PInt z => int_to_float z
  | PStr s =>
      match float_of_str s with
      | Some x => Ok x
      | None => Raise ValueError
      end
  | PObj _ as_float => as_float
  | PNone | PTuple _ | PList _ | PDict _ => Raise TypeError
  end.

Definition calculate_file_hash (f : media_file) : option string :=
  if read_fault f then None else Some (md5_hexdigest (file_bytes f)).

Definition get_file_creation_date (f : media_file) : option datetime :=
  creation_time f.

Definition get_exif_data (f : media_file) : gmap string val :=
  match image_exif f with
  | Ok (Some exif) => exif
  | Ok None => ∅
  | Raise _ => ∅
  end.

(** One turn of the loop over the exported lines. *)
Definition video_line (video_data : gmap string string) (line : string)
  : gmap string string :=
  if PyStr.contains "Creation date" line || PyStr.contains "Date" line then
    match PyStr.split_once_tail ": " line with
    | Some date_str => <["creation_date" := date_str]> video_data
    | None => video_data
    end
  else video_data.

Definition get_video_metadata (f : media_file) : gmap string string :=
  if negb HACHOIR_SUPPORT then ∅
  else
    match video_meta f with
    | VideoRaise => ∅
    | VideoNoParser => ∅
    | VideoNoMetadata => ∅
    | VideoLines lines => foldl video_line ∅ lines
    end.

Definition EXIF_DATE_TAGS : list string :=
  ["DateTimeOriginal"; "DateTime"; "DateTimeDigitized"].

Definition VIDEO_DATE_FORMATS : list string :=
  ["%Y-%m-%d %H:%M:%S"; "%Y:%m:%d %H:%M:%S"; "%Y-%m-%dT%H:%M:%S"].

(** [datetime.strptime(v, fmt)] on a tag value: a value that is not a [str]
    raises TypeError, which the bare [except] swallows like ValueError. *)
Definition strptime_val (v : val) (fmt : string) : option datetime :=
  match v with
  | PStr s => strptime s fmt
  | _ => None
  end.

(** The loop over the EXIF date tags: the first tag that is present and
    parses is returned. *)
Fixpoint exif_date (tags : list string) (exif_data : gmap string val)
  : option datetime :=
  match tags with
  | [] => None
  | date_tag :: rest =>
      match exif_data !! date_tag with
      | Some v =>
          match strptime_val v "%Y:%m:%d %H:%M:%S" with
          | Some d => Some d
          | None => exif_date rest exif_data
          end
      | None => exif_date rest exif_data
      end
  end.

(** The loop over the video date formats. *)
Fixpoint video_date (fmts : list string) (text : string) : option datetime :=
  match fmts with
  | [] => None
  | fmt :: rest =>
      match strptime text fmt with
      | Some d => Some d
      | None => video_date rest text
      end
  end.

Definition get_date_taken (f : media_file) (exif_data : gmap string val)
  (video_data : gmap string string) : option datetime :=
  match (if bool_decide (exif_data = ∅) then None
         else exif_date EXIF_DATE_TAGS exif_data) with
  | Some d => Some d
  | None =>
      match (if bool_decide (video_data = ∅) then None
             else match video_data !! "creation_date" with
                  | Some date_str =>
                      video_date VIDEO_DATE_FORMATS (PyStr.split_head "." date_str)
                  | None => None
                  end) with
      | Some d => Some d
      | None => get_file_creation_date f
      end
  end.

(** The body of the [try] of [convert_to_degrees]. *)
Definition degrees_of (value : val) : result float :=
  match as_sequence value with
  | Some items =>
      if (3 <=? length items)%nat then
        d <- py_float (nth 0 items PNone);;
        m <- py_float (nth 1 items PNone);;
        s <- py_float (nth 2 items PNone);;
        Ok (d + (m / 60) + (s / 3600))%float
      else py_float value
  | None => py_float value
  end.

(** [except (ValueError, TypeError, ZeroDivisionError)] *)
Definition caught (e : exc) : bool :=
  match e with
  | ValueError | TypeError | ZeroDivisionError => true
  | OverflowError | OtherException => false
  end.

(** The inner function of [get_gps_info]: a caught exception becomes 0.0,
    any other exception propagates. *)
Definition convert_to_degrees (value : val) : result float :=
  match degrees_of value with
  | Ok degrees => Ok degrees
  | Raise e => if caught e then Ok 0%float else Raise e
  end.

Definition get_gps_info (exif_data : gmap string val) : option float * option float :=
  let gps_info := dict_get exif_data "GPSInfo" in
  if negb (truthy gps_info) then (None, None)
  else
    let attempt : result (option float * option float) :=
      gps <- as_dict gps_info;;
      let lat_ref := dict_get_default gps "GPSLatitudeRef" (PStr "N") in
      let lat_data := dict_get gps "GPSLatitude" in
      if truthy lat_data then
        lat <- convert_to_degrees lat_data;;
        let lat := if eq_str lat_ref "S" then (- lat)%float else lat in
        let lon_ref := dict_get_default gps "GPSLongitudeRef" (PStr "E") in
        let lon_data := dict_get gps "GPSLongitude" in
        if truthy lon_data then
          lon <- convert_to_degrees lon_data;;
          let lon := if eq_str lon_ref "W" then (- lon)%float else lon in
          Ok (Some lat, Some lon)
        else Ok (None, None)
      else Ok (None, None) in
    match attempt with
    | Ok coordinate => coordinate
    | Raise _ => (None, None)
    end.

(** [a.get(k1) or a.get(k2) or ...]: the first truthy operand, else the last. *)
Fixpoint first_truthy (address : gmap string val) (keys : list string) : val :=
  match keys with
  | [] => PNone
  | [k] => dict_get address k
  | k :: rest =>
      let v := dict_get address k in
      if truthy v then v else first_truthy address rest
  end.

(** [v.replace(" ", "_").replace(",", "") if v else "Unknown"]: a truthy
    value without a [replace] method raises AttributeError. *)
Definition clean_name (v : val) : result string :=
  if truthy v then
    match v with
    | PStr s => Ok (PyStr.replace "," "" (PyStr.replace " " "_" s))
    | _ => Raise OtherException
    end
  else Ok "Unknown".

(** The body of the [try] of [get_location_name] after the request:
    [Ok (Some name)] when a name was composed, [Ok None] when the service
    returned nothing. *)
Definition compose_name (reply : geo_reply) : result (option string) :=
  match reply with
  | GeoRaise => Raise OtherException
  | GeoNone => Ok None
  | GeoLocation raw =>
      address <- match raw !! "address" with
                 | Some v => as_dict v
                 | None => Ok ∅
                 end;;
      let city := first_truthy address
        ["city"; "town"; "village"; "suburb"; "neighbourhood"; "county"; "state"] in
      let country := dict_get address "country" in
      city_name <- clean_name city;;
      country_name <- clean_name country;;
      Ok (Some (city_name +:+ "_" +:+ country_name))
  end.

Definition set_cache (key : float * float) (name : string) (w : world) : world :=
  {| location_cache := cache_store key name (location_cache w);
     processed_files := processed_files w;
     dest_tree := dest_tree w;
     trace := trace w |}.

Definition get_location_name (lat lon : option float) (w : world) : string * world :=
  if negb (truthy_float lat) || negb (truthy_float lon) then ("Unknown_Location", w)
  else
    match lat, lon with
    | Some la, Some lo =>
        let cache_key := (round3 la, round3 lo) in
        match cache_lookup cache_key (location_cache w) with
        | Some name => (name, w)
        | None =>
            let reply := geolocator_reverse (length (geocode_requests (trace w))) la lo in
            let w := log (EGeocode la lo) w in
            match compose_name reply with
            | Ok (Some name) => (name, log ESleep (set_cache cache_key name w))
            | Ok None | Raise _ =>
                ("Unknown_Location", set_cache cache_key "Unknown_Location" w)
            end
        end
    | _, _ => ("Unknown_Location", w)
    end.

Definition is_supported_file (f : media_file) : bool :=
  bool_decide (PyStr.lower (PyStr.path_suffix (file_name f)) ∈ SUPPORTED_EXTENSIONS).

(** The [N]-th suffixed name: [dest_folder / f"{stem}_{N}{suffix}"]. *)
Definition candidate (dest_folder stem suffix : string) (n : nat) : string :=
  PyStr.join dest_folder (stem +:+ "_" +:+ pretty n +:+ suffix).

(** The [while dest_file.exists()] loop.  [fuel] bounds the number of turns;
    [free_name_total] shows that two more than the number of existing paths
    is enough. *)
Fixpoint free_name (fuel : nat) (tree : gmap string (list byte))
  (dest_folder stem suffix dest_file : string) (counter : nat) : option string :=
  match fuel with
  | O => None
  | S fuel' =>
      if bool_decide (is_Some (tree !! dest_file)) then
        free_name fuel' tree dest_folder stem suffix
          (candidate dest_folder stem suffix counter) (S counter)
      else Some dest_file
  end.

Definition add_digest (digest : string) (w : world) : world :=
  {| location_cache := location_cache w;
     processed_files := {[digest]} ∪ processed_files w;
     dest_tree := dest_tree w;
     trace := trace w |}.

(** A [shutil.copy2] or [shutil.move] that completes: the target holds the
    content of the source.  A move also removes the source, which changes
    the source tree only, the source lying outside the output directory. *)
Definition write_file (move_files : bool) (f : media_file) (dest_file : string)
  (w : world) : world :=
  {| location_cache := location_cache w;
     processed_files := processed_files w;
     dest_tree := <[dest_file := file_bytes f]> (dest_tree w);
     trace := (if move_files then EMove (file_path f) dest_file
               else ECopy (file_path f) dest_file) :: trace w |}.

Definition year_folder (date_taken : option datetime) : string :=
  match date_taken with
  | Some d => pretty (year d)
  | None => "Unknown_Year"
  end.

Definition month_folder (date_taken : option datetime) : string :=
  match date_taken with
  | Some d => two_digits (month d) +:+ "-" +:+ month_name (month d)
  | None => "Unknown_Month"
  end.

(** The target of the copy: the bare name if it is free, else the first free
    [stem_N suffix] for N = 1, 2, ... *)
Definition destination_file (tree : gmap string (list byte))
  (dest_folder name : string) : option string :=
  free_name (S (S (size tree))) tree dest_folder
    (PyStr.path_stem name) (PyStr.path_suffix name)
    (PyStr.join dest_folder name) 1.

(** Metadata extraction by file type. *)
Definition extract_metadata (f : media_file) (w : world)
  : gmap string val * gmap string string * world :=
  let file_ext := PyStr.lower (PyStr.path_suffix (file_name f)) in
  if bool_decide (file_ext ∈ PHOTO_EXTENSIONS) || bool_decide (file_ext ∈ IPHONE_EXTENSIONS)
  then (get_exif_data f, ∅, log (EExif (file_path f)) w)
  else if bool_decide (file_ext ∈ VIDEO_EXTENSIONS)
  then (∅, get_video_metadata f, log (EVideo (file_path f)) w)
  else (∅, ∅, w).

(** [get_location_name(lat, lon) if lat and lon else "Unknown_Location"] *)
Definition resolve_location (lat lon : option float) (w : world) : string * world :=
  if truthy_float lat && truthy_float lon then get_location_name lat lon w
  else ("Unknown_Location", w).

(** A [shutil.copy2] or [shutil.move] that raises after it created the
    target: the target stays, with the first [n] bytes of the source (all of
    them when only the metadata or the removal of the source failed).  The
    source is still in place, and no completed write is logged. *)
Definition abandon_target (f : media_file) (dest_file : string) (n : nat)
  (w : world) : world :=
  {| location_cache := location_cache w;
     processed_files := processed_files w;
     dest_tree := <[dest_file := take n (file_bytes f)]> (dest_tree w);
     trace := trace w |}.

(** [mkdir], the search for a free name, and the copy or move.  An exception
    of any of them ends in the handler of [process_file], which returns
    [False]; what a copy had written by then is not removed. *)
Definition place_file (f : media_file) (move_files : bool) (dest_folder : string)
  (w : world) : bool * world :=
  if write_fault f then
    match fault_leaves f,
          destination_file (dest_tree w) dest_folder (file_name f) with
    | Some n, Some dest_file => (false, abandon_target f dest_file n w)
    | _, _ => (false, w)
    end
  else
    match destination_file (dest_tree w) dest_folder (file_name f) with
    | Some dest_file => (true, write_file move_files f dest_file w)
    | None => (false, w)
    end.

(** Everything [process_file] does after the duplicate gate. *)
Definition organize_file (f : media_file) (output_dir : string) (move_files : bool)
  (w : world) : bool * world :=
  let '(exif_data, video_data, w) := extract_metadata f w in
  let date_taken := get_date_taken f exif_data video_data in
  let '(lat, lon) :=
    if bool_decide (exif_data = ∅) then (None, None) else get_gps_info exif_data in
  let year := year_folder date_taken in
  let month := month_folder date_taken in
  let '(location, w) := resolve_location lat lon w in
  let dest_folder := PyStr.join (PyStr.join (PyStr.join output_dir year) month) location in
  place_file f move_files dest_folder w.

Definition process_file (f : media_file) (output_dir : string) (move_files : bool)
  (w : world) : bool * world :=
  let file_hash := calculate_file_hash f in
  match file_hash with
  | Some digest =>
      if negb (String.eqb digest "") && bool_decide (digest ∈ processed_files w)
      then (false, w)
      else
        let w := if negb (String.eqb digest "") then add_digest digest w else w in
        organize_file f output_dir move_files w
  | None => organize_file f output_dir move_files w
  end.

(** One turn of the loop of [organize_media]:
    [if process_file(...): success_count += 1]. *)
Definition count_file (output_dir : string) (move_files : bool)
  (acc : nat * world) (f : media_file) : nat * world :=
  let '(ok, w) := process_file f output_dir move_files acc.2 in
  (if ok then S acc.1 else acc.1, w).

(** [organize_media] on the files found by [os.walk], in walk order: the
    number of successes and the final world. *)
Definition organize_media (files : list media_file) (output_dir : string)
  (move_files : bool) (w : world) : nat * world :=
  foldl (count_file output_dir move_files) (0%nat, w)
        (filter (fun f => is_supported_file f = true) files).

(** The date a tag yields: the tag is present and its value parses. *)
Definition tag_date (exif_data : gmap string val) (date_tag : string)
  : option datetime :=
  match exif_data !! date_tag with
  | Some v => strptime_val v "%Y:%m:%d %H:%M:%S"
  | None => None
  end.

(** The value an exported line contributes to [video_data], if any. *)
Definition line_value (line : string) : option string :=
  if PyStr.contains "Creation date" line || PyStr.contains "Date" line
  then PyStr.split_once_tail ": " line
  else None.

(** The cache key of a coordinate: both components rounded to three
    decimals. *)
Definition cache_key (c : float * float) : float * float :=
  (round3 c.1, round3 c.2).

(** A run of location lookups, in order. *)
Definition lookup_all (coordinates : list (option float * option float))
  (w : world) : world :=
  foldl (fun w c => (get_location_name c.1 c.2 w).2) w coordinates.

(** No request has a key that the dictionary would find equal to the key of
    an earlier request; [requests] is newest first. *)
Fixpoint distinct_keys (requests : list (float * float)) : Prop :=
  match requests with
  | [] => True
  | r :: earlier =>
      Forall (fun e => key_eqb (cache_key e) (cache_key r) = false) earlier /\
      distinct_keys earlier
  end.

(** [w'] has the geocode cache and the requests of [w]. *)
Definition same_geo (w w' : world) : Prop :=
  location_cache w' = location_cache w /\
  geocode_requests (trace w') = geocode_requests (trace w).

(** What a step of the run does to the geocoder: nothing, or one request for
    a key that missed the cache, whose answer is stored under that key. *)
Inductive geo_step (w w' : world) : Prop :=
| geo_quiet :
    same_geo w w' -> geo_step w w'
| geo_request (la lo : float) (name : string) :
    cache_lookup (cache_key (la, lo)) (location_cache w) = None ->
    location_cache w' = (location_cache w ++ [(cache_key (la, lo), name)])%list ->
    geocode_requests (trace w') = (la, lo) :: geocode_requests (trace w) ->
    geo_step w w'.

(** [w'] has the digests, the destination tree and the completed writes of
    [w]. *)
Definition same_files (w w' : world) : Prop :=
  processed_files w' = processed_files w /\
  dest_tree w' = dest_tree w /\
  written_paths (trace w') = written_paths (trace w).

(** ** Projections and predicates for the properties of the whole run *)

(** The paths a run touched in the source tree: the files whose metadata it
    read and the files it copied or moved. *)
Definition touched (e : event) : option string :=
  match e with
  | EExif path | EVideo path => Some path
  | ECopy src _ | EMove src _ => Some src
  | EGeocode _ _ | ESleep => None
  end.

(** The gate of [process_file] fires: the digest was computed, is truthy and
    has been seen. *)
Definition duplicate (f : media_file) (w : world) : Prop :=
  exists digest,
    calculate_file_hash f = Some digest /\ digest <> "" /\
    digest ∈ processed_files w.

(** Text without a blank and without a comma. *)
Fixpoint no_blank_comma (s : string) : bool :=
  match s with
  | EmptyString => true
  | String a rest =>
      negb (Ascii.eqb a " ") && negb (Ascii.eqb a ",") && no_blank_comma rest
  end.

(** The trace of [w'] is the trace of [w] with new events in front, all of
    which satisfy [P]. *)
Definition extends_by (P : event -> Prop) (w w' : world) : Prop :=
  exists new, trace w' = (new ++ trace w)%list /\ Forall P new.

(** ** Facts about the name search *)

Lemma string_length_app (a b : string) :
  String.length (a +:+ b) = String.length a + String.length b.
Proof. induction a as [|c a IH]; simpl; [done | by rewrite IH]. Qed.

Lemma string_app_inv_tail (a b s : string) : a +:+ s = b +:+ s -> a = b.
Proof.
  revert b. induction a as [|c a IH]; intros [|d b] H.
  - done.
  - apply (f_equal String.length) in H.
    rewrite !string_length_app in H. simpl in H. lia.
  - apply (f_equal String.length) in H.
    rewrite !string_length_app in H. simpl in H. lia.
  - change (String c (a +:+ s) = String d (b +:+ s)) in H.
    injection H as -> H. f_equal. by apply IH.
Qed.

Lemma candidate_inj dest_folder stem suffix :
  Inj (=) (=) (candidate dest_folder stem suffix).
Proof.
  intros n m H. unfold candidate, PyStr.join in H.
  do 4 apply String.app_inj in H.
  apply string_app_inv_tail in H. by apply (inj pretty) in H.
Qed.

(** A successful search returns a path that does not exist, and it is the
    current name or the first free candidate from [counter] on. *)
Lemma free_name_sound fuel tree dest_folder stem suffix dest_file counter p :
  free_name fuel tree dest_folder stem suffix dest_file counter = Some p ->
  tree !! p = None /\
  (p = dest_file \/
   (is_Some (tree !! dest_file) /\
    exists n, counter <= n /\ p = candidate dest_folder stem suffix n /\
      forall i, counter <= i < n -> is_Some (tree !! candidate dest_folder stem suffix i))).
Proof.
  revert dest_file counter.
  induction fuel as [|fuel IH]; intros dest_file counter; simpl; [done|].
  case_bool_decide as Hex.
  - intros H. apply IH in H as [Hfree [-> | [Hc (n & Hn & -> & Hall)]]].
    + split; [done|]. right. split; [done|].
      exists counter. split; [lia|]. split; [done|]. intros i Hi. lia.
    + split; [done|]. right. split; [done|].
      exists n. split; [lia|]. split; [done|].
      intros i Hi. destruct (decide (i = counter)) as [->|]; [done|].
      apply Hall. lia.
  - intros [= <-]. split; [|by left].
    by apply eq_None_not_Some.
Qed.

(** A search that gives up has seen only existing paths. *)
Lemma free_name_exhausted fuel tree dest_folder stem suffix dest_file counter :
  free_name fuel tree dest_folder stem suffix dest_file counter = None ->
  forall i, counter <= i < counter + (fuel - 1) ->
    is_Some (tree !! candidate dest_folder stem suffix i).
Proof.
  revert dest_file counter.
  induction fuel as [|fuel IH]; intros dest_file counter; simpl; [intros; lia|].
  case_bool_decide as Hex; [|done].
  intros H i Hi.
  destruct fuel as [|fuel]; [lia|].
  destruct (decide (i = counter)) as [->|Hne].
  - simpl in H. case_bool_decide; [done|congruence].
  - apply (IH _ _ H). simpl. lia.
Qed.

(** The loop terminates: among [size tree + 1] distinct candidates one is
    free. *)
Lemma free_name_total tree dest_folder stem suffix dest_file counter :
  is_Some (free_name (S (S (size tree))) tree dest_folder stem suffix dest_file counter).
Proof.
  destruct (free_name _ _ _ _ _ _ _) as [p|] eqn:H; [by eexists|].
  exfalso.
  pose proof (free_name_exhausted _ _ _ _ _ _ _ H) as Hall.
  set (l := candidate dest_folder stem suffix <$> seq counter (S (size tree))).
  assert (NoDup l) as Hnd.
  { apply (NoDup_fmap_2 _ (Inj0 := candidate_inj dest_folder stem suffix)).
    apply NoDup_seq. }
  assert (list_to_set l ⊆ dom tree) as Hsub.
  { intros x Hx. apply elem_of_list_to_set in Hx.
    apply list_elem_of_fmap in Hx as (i & -> & Hi).
    apply elem_of_seq in Hi. apply elem_of_dom. apply Hall. simpl. lia. }
  apply subseteq_size in Hsub.
  rewrite size_list_to_set in Hsub by done.
  rewrite size_dom in Hsub. unfold l in Hsub.
  rewrite length_fmap, length_seq in Hsub. lia.
Qed.

(** ** Frame facts: what each step leaves alone *)

Lemma same_files_refl w : same_files w w.
Proof. by repeat split. Qed.

Lemma same_files_trans w1 w2 w3 :
  same_files w1 w2 -> same_files w2 w3 -> same_files w1 w3.
Proof. intros (?&?&?) (?&?&?). repeat split; congruence. Qed.

Lemma get_location_name_same_files lat lon w :
  same_files w (get_location_name lat lon w).2.
Proof.
  unfold get_location_name.
  destruct (negb (truthy_float lat) || negb (truthy_float lon)); [apply same_files_refl|].
  destruct lat as [la|], lon as [lo|]; try apply same_files_refl.
  destruct (cache_lookup _ _); [apply same_files_refl|].
  destruct (compose_name _) as [[name|]|e]; by repeat split.
Qed.

Lemma resolve_location_same_files lat lon w :
  same_files w (resolve_location lat lon w).2.
Proof.
  unfold resolve_location.
  destruct (truthy_float lat && truthy_float lon);
    [apply get_location_name_same_files | apply same_files_refl].
Qed.

Lemma extract_metadata_same_files f w :
  same_files w (extract_metadata f w).2.
Proof.
  unfold extract_metadata.
  repeat case_match; by repeat split.
Qed.

(** What [place_file] does to the files: the target is a path that did not
    exist; a write that completes puts the source there, a write that faults
    leaves nothing or the bytes that had reached the target. *)
Lemma place_file_spec f move_files dest_folder w :
  exists dest_file,
    destination_file (dest_tree w) dest_folder (file_name f) = Some dest_file /\
    dest_tree w !! dest_file = None /\
    place_file f move_files dest_folder w
    = if write_fault f
      then (false, match fault_leaves f with
                   | Some n => abandon_target f dest_file n w
                   | None => w
                   end)
      else (true, write_file move_files f dest_file w).
Proof.
  destruct (free_name_total (dest_tree w) dest_folder
              (PyStr.path_stem (file_name f)) (PyStr.path_suffix (file_name f))
              (PyStr.join dest_folder (file_name f)) 1) as [p Hp].
  exists p. unfold place_file, destination_file. rewrite Hp.
  split; [done|]. split; [by apply free_name_sound in Hp as [? _]|].
  destruct (write_fault f); [|done]. by destruct (fault_leaves f).
Qed.

Lemma written_paths_write_file move_files f dest_file w :
  written_paths (trace (write_file move_files f dest_file w))
  = dest_file :: written_paths (trace w).
Proof. by destruct move_files. Qed.

(** The stages of [organize_file], named. *)
Lemma organize_file_stages f output_dir move_files w :
  exists location w',
    same_files w w' /\
    organize_file f output_dir move_files w
    = place_file f move_files
        (PyStr.join (PyStr.join (PyStr.join output_dir
           (year_folder (get_date_taken f (extract_metadata f w).1.1 (extract_metadata f w).1.2)))
           (month_folder (get_date_taken f (extract_metadata f w).1.1 (extract_metadata f w).1.2)))
           location) w'.
Proof.
  unfold organize_file.
  pose proof (extract_metadata_same_files f w) as H1.
  destruct (extract_metadata f w) as [[exif_data video_data] w1]. simpl in *.
  destruct (if bool_decide (exif_data = ∅) then _ else _) as [lat lon].
  pose proof (resolve_location_same_files lat lon w1) as H2.
  destruct (resolve_location lat lon w1) as [location w2]. simpl in *.
  exists location, w2. split; [|done].
  by eapply same_files_trans.
Qed.

(** [organize_file] never touches the digests.  Unless the write faults it
    writes one new path; a write that faults completes nothing, and leaves
    the tree as it was or with the bytes that had reached a new path. *)
Lemma organize_file_spec f output_dir move_files w :
  processed_files (organize_file f output_dir move_files w).2 = processed_files w /\
  if write_fault f
  then (organize_file f output_dir move_files w).1 = false /\
       match fault_leaves f with
       | Some n =>
           exists dest_file,
             dest_tree w !! dest_file = None /\
             dest_tree (organize_file f output_dir move_files w).2
               = <[dest_file := take n (file_bytes f)]> (dest_tree w)
       | None => dest_tree (organize_file f output_dir move_files w).2 = dest_tree w
       end /\
       written_paths (trace (organize_file f output_dir move_files w).2)
         = written_paths (trace w)
  else (organize_file f output_dir move_files w).1 = true /\
       exists dest_file,
         dest_tree w !! dest_file = None /\
         dest_tree (organize_file f output_dir move_files w).2
           = <[dest_file := file_bytes f]> (dest_tree w) /\
         written_paths (trace (organize_file f output_dir move_files w).2)
           = dest_file :: written_paths (trace w).
Proof.
  destruct (organize_file_stages f output_dir move_files w)
    as (location & w' & (Hp & Ht & Hw) & ->).
  destruct (place_file_spec f move_files
    (PyStr.join (PyStr.join (PyStr.join output_dir
       (year_folder (get_date_taken f (extract_metadata f w).1.1 (extract_metadata f w).1.2)))
       (month_folder (get_date_taken f (extract_metadata f w).1.1 (extract_metadata f w).1.2)))
       location) w') as (dest_file & _ & Hfree & ->).
  destruct (write_fault f).
  - destruct (fault_leaves f) as [n|]; simpl.
    + split; [done|]. split; [done|]. split; [|done].
      exists dest_file. by rewrite <- Ht.
    + by repeat split.
  - simpl. split; [done|]. split; [done|].
    exists dest_file. rewrite <- Ht, <- Hw. split; [done|]. split; [done|].
    apply written_paths_write_file.
Qed.

(** ** The duplicate gate *)

Lemma process_file_skip f output_dir move_files w digest :
  calculate_file_hash f = Some digest ->
  digest <> "" ->
  digest ∈ processed_files w ->
  process_file f output_dir move_files w = (false, w).
Proof.
  intros Hh Hne Hin. unfold process_file. rewrite Hh.
  apply String.eqb_neq in Hne. rewrite Hne. simpl.
  by rewrite bool_decide_eq_true_2.
Qed.

Lemma process_file_digests_mono f output_dir move_files w :
  processed_files w ⊆ processed_files (process_file f output_dir move_files w).2.
Proof.
  unfold process_file.
  destruct (calculate_file_hash f) as [digest|].
  - destruct (negb (digest =? "")%string && _); [done|].
    destruct (organize_file_spec f output_dir move_files
                (if negb (digest =? "")%string then add_digest digest w else w)) as [-> _].
    destruct (negb _); simpl; set_solver.
  - by destruct (organize_file_spec f output_dir move_files w) as [-> _].
Qed.

Lemma process_file_records f output_dir move_files w digest :
  calculate_file_hash f = Some digest ->
  digest <> "" ->
  digest ∈ processed_files (process_file f output_dir move_files w).2.
Proof.
  intros Hh Hne. unfold process_file. rewrite Hh.
  apply String.eqb_neq in Hne. rewrite Hne. simpl.
  case_bool_decide as Hin; [done|].
  destruct (organize_file_spec f output_dir move_files (add_digest digest w)) as [-> _].
  simpl. set_solver.
Qed.

Lemma foldl_count_file_digests_mono output_dir move_files files acc :
  processed_files acc.2
  ⊆ processed_files (foldl (count_file output_dir move_files) acc files).2.
Proof.
  revert acc. induction files as [|f files IH]; intros acc; simpl; [done|].
  etrans; [|apply IH].
  unfold count_file.
  pose proof (process_file_digests_mono f output_dir move_files acc.2) as H.
  by destruct (process_file f output_dir move_files acc.2).
Qed.

Lemma organize_media_digests_mono files output_dir move_files w :
  processed_files w ⊆ processed_files (organize_media files output_dir move_files w).2.
Proof. apply (foldl_count_file_digests_mono _ _ _ (0, w)). Qed.

(** C1.  Let [f1] and [f2] be readable files whose contents have the same
    digest (as byte-identical files do).  After [f1] went through
    [process_file], and whatever files [between] were processed next,
    [process_file] on [f2] returns [False] and leaves the world as it was: no
    metadata is read, nothing is copied or moved.  A run over the two files
    alone, when the digest is new and writing [f1] succeeds, counts one
    success and writes exactly one path, which did not exist before. *)
Theorem duplicate_digest_skipped
  (f1 f2 : media_file) (between : list media_file)
  (output_dir : string) (move_files : bool) (w : world) :
  (forall content, md5_hexdigest content <> "") ->
  read_fault f1 = false ->
  read_fault f2 = false ->
  md5_hexdigest (file_bytes f2) = md5_hexdigest (file_bytes f1) ->
  (let w2 := (organize_media between output_dir move_files
                (process_file f1 output_dir move_files w).2).2 in
   process_file f2 output_dir move_files w2 = (false, w2)) /\
  (is_supported_file f1 = true ->
   is_supported_file f2 = true ->
   md5_hexdigest (file_bytes f1) ∉ processed_files w ->
   write_fault f1 = false ->
   exists dest_file w',
     organize_media [f1; f2] output_dir move_files w = (1, w') /\
     dest_tree w !! dest_file = None /\
     dest_tree w' = <[dest_file := file_bytes f1]> (dest_tree w) /\
     written_paths (trace w') = dest_file :: written_paths (trace w)).
Proof.
  intros Hne Hr1 Hr2 Hsame.
  assert (calculate_file_hash f1 = Some (md5_hexdigest (file_bytes f1))) as Hh1
    by (unfold calculate_file_hash; by rewrite Hr1).
  assert (calculate_file_hash f2 = Some (md5_hexdigest (file_bytes f1))) as Hh2
    by (unfold calculate_file_hash; by rewrite Hr2, Hsame).
  split.
  - intros w2. apply (process_file_skip _ _ _ _ _ Hh2 (Hne _)).
    apply organize_media_digests_mono.
    by apply process_file_records.
  - intros Hs1 Hs2 Hnew Hw1.
    unfold organize_media.
    rewrite !filter_cons, Hs1, Hs2. simpl.
    unfold count_file at 2. simpl.
    assert (process_file f1 output_dir move_files w
            = organize_file f1 output_dir move_files
                (add_digest (md5_hexdigest (file_bytes f1)) w)) as Hp1.
    { unfold process_file. rewrite Hh1.
      pose proof (Hne (file_bytes f1)) as Hne1.
      apply String.eqb_neq in Hne1. rewrite Hne1. simpl.
      by rewrite bool_decide_eq_false_2. }
    pose proof (process_file_records f1 output_dir move_files w _ Hh1 (Hne _)) as Hin.
    rewrite Hp1 in Hin |- *.
    destruct (organize_file_spec f1 output_dir move_files
                (add_digest (md5_hexdigest (file_bytes f1)) w)) as [_ Hspec].
    rewrite Hw1 in Hspec. destruct Hspec as (Hok & dest_file & Hfree & Htree & Hwr).
    destruct (organize_file f1 output_dir move_files _) as [ok w1]. simpl in *.
    subst ok. unfold count_file. simpl.
    rewrite (process_file_skip f2 output_dir move_files w1 _ Hh2 (Hne _) Hin).
    by exists dest_file, w1.
Qed.

(** C9.  When the digest cannot be computed, [process_file] is exactly the
    rest of the pipeline on the unchanged world: the file is not skipped
    (whatever digests have been seen), no digest is recorded, and unless the
    write faults the file is counted as a success and lands on a path that
    did not exist. *)
Theorem hash_failure_bypasses_gate
  (f : media_file) (output_dir : string) (move_files : bool) (w : world) :
  calculate_file_hash f = None ->
  process_file f output_dir move_files w = organize_file f output_dir move_files w /\
  processed_files (process_file f output_dir move_files w).2 = processed_files w /\
  (write_fault f = false ->
   (process_file f output_dir move_files w).1 = true /\
   exists dest_file,
     dest_tree w !! dest_file = None /\
     dest_tree (process_file f output_dir move_files w).2
       = <[dest_file := file_bytes f]> (dest_tree w) /\
     written_paths (trace (process_file f output_dir move_files w).2)
       = dest_file :: written_paths (trace w)).
Proof.
  intros Hh.
  assert (process_file f output_dir move_files w
          = organize_file f output_dir move_files w) as ->
    by (unfold process_file; by rewrite Hh).
  destruct (organize_file_spec f output_dir move_files w) as [Hp Hspec].
  split; [done|]. split; [done|].
  intros Hw. by rewrite Hw in Hspec.
Qed.

(** ** Collision-free destinations *)

(** What [process_file] does to the files: every path keeps its content, and
    no write completes or one does, on a path that did not exist. *)
Lemma process_file_files f output_dir move_files w :
  dest_tree w ⊆ dest_tree (process_file f output_dir move_files w).2 /\
  (written_paths (trace (process_file f output_dir move_files w).2)
   = written_paths (trace w) \/
   exists dest_file,
     dest_tree w !! dest_file = None /\
     is_Some (dest_tree (process_file f output_dir move_files w).2 !! dest_file) /\
     written_paths (trace (process_file f output_dir move_files w).2)
       = dest_file :: written_paths (trace w)).
Proof.
  assert (forall w0, dest_tree w0 = dest_tree w ->
            written_paths (trace w0) = written_paths (trace w) ->
            dest_tree w ⊆ dest_tree (organize_file f output_dir move_files w0).2 /\
            (written_paths (trace (organize_file f output_dir move_files w0).2)
             = written_paths (trace w) \/
             exists dest_file,
               dest_tree w !! dest_file = None /\
               is_Some (dest_tree (organize_file f output_dir move_files w0).2
                          !! dest_file) /\
               written_paths (trace (organize_file f output_dir move_files w0).2)
                 = dest_file :: written_paths (trace w))) as Horg.
  { intros w0 Ht Hw.
    destruct (organize_file_spec f output_dir move_files w0) as [_ Hspec].
    rewrite Ht, Hw in Hspec.
    destruct (write_fault f).
    - destruct Hspec as (_ & Ht' & Hw'). split; [|by left].
      destruct (fault_leaves f) as [n|].
      + destruct Ht' as (dest_file & Hfree & ->). by apply insert_subseteq.
      + by rewrite Ht'.
    - destruct Hspec as (_ & dest_file & Hfree & Ht' & Hw').
      rewrite Ht'. split; [by apply insert_subseteq|].
      right. exists dest_file. rewrite lookup_insert_eq. by repeat split. }
  unfold process_file.
  destruct (calculate_file_hash f) as [digest|]; [|by apply Horg].
  destruct (negb (digest =? "")%string && _); [by split; [|left]|].
  apply Horg; by destruct (negb _).
Qed.

Lemma foldl_count_file_paths output_dir move_files files acc :
  exists new,
    written_paths (trace (foldl (count_file output_dir move_files) acc files).2)
    = (new ++ written_paths (trace acc.2))%list /\
    NoDup new /\
    (forall p, p ∈ new ->
       dest_tree acc.2 !! p = None /\
       is_Some (dest_tree (foldl (count_file output_dir move_files) acc files).2 !! p)) /\
    (forall p, is_Some (dest_tree acc.2 !! p) ->
       is_Some (dest_tree (foldl (count_file output_dir move_files) acc files).2 !! p)).
Proof.
  revert acc. induction files as [|f files IH]; intros acc; simpl.
  { exists []. split; [done|]. split; [apply NoDup_nil_2|]. split; [|done].
    intros p Hp. by apply elem_of_nil in Hp. }
  destruct (IH (count_file output_dir move_files acc f)) as (new & Hw & Hnd & Hnew & Hkeep).
  assert ((count_file output_dir move_files acc f).2
          = (process_file f output_dir move_files acc.2).2) as Hstep.
  { unfold count_file. by destruct (process_file f output_dir move_files acc.2). }
  rewrite Hstep in Hw, Hnew, Hkeep.
  destruct (process_file_files f output_dir move_files acc.2) as [Hsub Hcases].
  assert (forall p, is_Some (dest_tree acc.2 !! p) ->
            is_Some (dest_tree (process_file f output_dir move_files acc.2).2 !! p))
    as Hgrow.
  { intros p [content Hp]. exists content. by eapply lookup_weaken. }
  destruct Hcases as [Hp | (dest_file & Hfree & Hthere & Hp)].
  - exists new. rewrite Hw, Hp.
    split; [done|]. split; [done|]. split.
    + intros p Hin. destruct (Hnew p Hin) as [Hnone Hsome]. split; [|done].
      by eapply lookup_weaken_None.
    + intros p Hp'. by apply Hkeep, Hgrow.
  - exists (new ++ [dest_file])%list. rewrite Hw, Hp, <- app_assoc. simpl.
    split; [done|]. split; [|split].
    + apply NoDup_app. split; [done|]. split; [|apply NoDup_singleton].
      intros p Hin Hp'. apply list_elem_of_singleton in Hp' as ->.
      apply Hnew in Hin as [Hnone _]. rewrite Hnone in Hthere. by destruct Hthere.
    + intros p Hin. apply elem_of_app in Hin as [Hin | Hin].
      * destruct (Hnew p Hin) as [Hnone Hsome]. split; [|done].
        by eapply lookup_weaken_None.
      * apply list_elem_of_singleton in Hin as ->. split; [done|].
        by apply Hkeep.
    + intros p Hp'. by apply Hkeep, Hgrow.
Qed.

(** C6.  For every destination tree the search for the target returns a path
    that does not exist: the bare name when it is free, else the first free
    [stem_N suffix] with N = 1, 2, ...  Hence the paths written during a run
    are pairwise distinct and none of them existed when the run began.  With
    img.jpg present the target of another img.jpg is img_1.jpg, and with both
    present it is img_2.jpg. *)
Theorem destination_collision_free :
  (forall (tree : gmap string (list byte)) (dest_folder name : string),
     exists p,
       destination_file tree dest_folder name = Some p /\
       tree !! p = None /\
       (tree !! PyStr.join dest_folder name = None -> p = PyStr.join dest_folder name) /\
       (is_Some (tree !! PyStr.join dest_folder name) ->
        exists n, 1 <= n /\
          p = candidate dest_folder (PyStr.path_stem name) (PyStr.path_suffix name) n /\
          forall i, 1 <= i < n ->
            is_Some (tree !! candidate dest_folder (PyStr.path_stem name)
                                (PyStr.path_suffix name) i))) /\
  (forall (files : list media_file) (output_dir : string) (move_files : bool) (w : world),
     exists new,
       written_paths (trace (organize_media files output_dir move_files w).2)
       = (new ++ written_paths (trace w))%list /\
       NoDup new /\
       forall p, p ∈ new -> dest_tree w !! p = None) /\
  (forall (tree : gmap string (list byte)) (dest_folder : string),
     is_Some (tree !! PyStr.join dest_folder "img.jpg") ->
     (tree !! PyStr.join dest_folder "img_1.jpg" = None ->
      destination_file tree dest_folder "img.jpg"
      = Some (PyStr.join dest_folder "img_1.jpg")) /\
     (is_Some (tree !! PyStr.join dest_folder "img_1.jpg") ->
      tree !! PyStr.join dest_folder "img_2.jpg" = None ->
      destination_file tree dest_folder "img.jpg"
      = Some (PyStr.join dest_folder "img_2.jpg"))).
Proof.
  assert (forall (tree : gmap string (list byte)) (dest_folder name : string),
     exists p,
       destination_file tree dest_folder name = Some p /\
       tree !! p = None /\
       (tree !! PyStr.join dest_folder name = None -> p = PyStr.join dest_folder name) /\
       (is_Some (tree !! PyStr.join dest_folder name) ->
        exists n, 1 <= n /\
          p = candidate dest_folder (PyStr.path_stem name) (PyStr.path_suffix name) n /\
          forall i, 1 <= i < n ->
            is_Some (tree !! candidate dest_folder (PyStr.path_stem name)
                                (PyStr.path_suffix name) i))) as Hsearch.
  { intros tree dest_folder name. unfold destination_file.
    destruct (free_name_total tree dest_folder (PyStr.path_stem name)
                (PyStr.path_suffix name) (PyStr.join dest_folder name) 1) as [p Hp].
    exists p. split; [done|].
    pose proof (free_name_sound _ _ _ _ _ _ _ _ Hp) as [Hfree Hcases].
    split; [done|]. split.
    - intros Hbare. destruct Hcases as [-> | [[x Hx] _]]; [done | congruence].
    - intros [x Hx]. destruct Hcases as [-> | [_ Hn]]; [congruence | done]. }
  split; [exact Hsearch|]. split.
  - intros files output_dir move_files w. unfold organize_media.
    destruct (foldl_count_file_paths output_dir move_files
                (filter (fun f => is_supported_file f = true) files) (0, w))
      as (new & Hw & Hnd & Hnew & _).
    exists new. split; [done|]. split; [done|].
    intros p Hp. by apply Hnew.
  - intros tree dest_folder Himg.
    destruct (Hsearch tree dest_folder "img.jpg") as (p & Hp & Hfree & _ & Hnext).
    destruct (Hnext Himg) as (n & Hn & -> & Hbelow). rewrite Hp.
    change (PyStr.join dest_folder "img_1.jpg")
      with (candidate dest_folder (PyStr.path_stem "img.jpg") (PyStr.path_suffix "img.jpg") 1).
    change (PyStr.join dest_folder "img_2.jpg")
      with (candidate dest_folder (PyStr.path_stem "img.jpg") (PyStr.path_suffix "img.jpg") 2).
    split.
    + intros H1. destruct (decide (n = 1)) as [->|Hne]; [done|].
      destruct (Hbelow 1) as [x Hx]; [lia | congruence].
    + intros [y Hy] H2.
      destruct (decide (n = 1)) as [->|Hne1]; [congruence|].
      destruct (decide (n = 2)) as [->|Hne2]; [done|].
      destruct (Hbelow 2) as [x Hx]; [lia | congruence].
Qed.

(** ** Date resolution *)

Lemma exif_date_tags exif_data :
  exif_date EXIF_DATE_TAGS exif_data
  = match tag_date exif_data "DateTimeOriginal" with
    | Some d => Some d
    | None =>
        match tag_date exif_data "DateTime" with
        | Some d => Some d
        | None => tag_date exif_data "DateTimeDigitized"
        end
    end.
Proof.
  unfold EXIF_DATE_TAGS, tag_date. simpl.
  destruct (exif_data !! "DateTimeOriginal") as [v1|];
    [destruct (strptime_val v1 _); [done|]|];
    (destruct (exif_data !! "DateTime") as [v2|];
       [destruct (strptime_val v2 _); [done|]|]);
    (destruct (exif_data !! "DateTimeDigitized") as [v3|];
       [by destruct (strptime_val v3 _)|done]).
Qed.

Lemma tag_date_empty date_tag : tag_date ∅ date_tag = None.
Proof. unfold tag_date. by rewrite lookup_empty. Qed.

(** C2, as the code has it.  The tags are tried in the order original
    capture, generic, digitized; a tag that is absent or does not parse is
    passed over, and when none yields a date the resolution goes on as for
    an empty tag map.  So a parseable original-capture tag always wins, and
    between a parseable generic and a parseable digitized tag the generic
    one wins. *)
Theorem exif_date_order
  (f : media_file) (exif_data : gmap string val) (video_data : gmap string string) :
  get_date_taken f exif_data video_data
  = match tag_date exif_data "DateTimeOriginal" with
    | Some d => Some d
    | None =>
        match tag_date exif_data "DateTime" with
        | Some d => Some d
        | None =>
            match tag_date exif_data "DateTimeDigitized" with
            | Some d => Some d
            | None => get_date_taken f ∅ video_data
            end
        end
    end /\
  (forall original,
     tag_date exif_data "DateTimeOriginal" = Some original ->
     get_date_taken f exif_data video_data = Some original) /\
  (forall generic digitized,
     tag_date exif_data "DateTimeOriginal" = None ->
     tag_date exif_data "DateTime" = Some generic ->
     tag_date exif_data "DateTimeDigitized" = Some digitized ->
     get_date_taken f exif_data video_data = Some generic).
Proof.
  assert (get_date_taken f exif_data video_data
          = match exif_date EXIF_DATE_TAGS exif_data with
            | Some d => Some d
            | None => get_date_taken f ∅ video_data
            end) as Hget.
  { unfold get_date_taken.
    rewrite (bool_decide_eq_true_2 ((∅ : gmap string val) = ∅)) by done.
    case_bool_decide as Hempty; [|done].
    subst exif_data. by rewrite exif_date_tags, !tag_date_empty. }
  rewrite exif_date_tags in Hget.
  split; [|split].
  - rewrite Hget. by repeat case_match.
  - intros original Ho. by rewrite Hget, Ho.
  - intros generic digitized Ho Hg _. by rewrite Hget, Ho, Hg.
Qed.

(** C3, as the code has it.  A file without tags and without video metadata,
    which is not a duplicate and can be written, lands in
    [year/month/Unknown_Location] of its filesystem creation time, under its
    bare name when that is free; the folders are Unknown_Year and
    Unknown_Month only when the creation time cannot be read either. *)
Theorem missing_metadata_routing
  (f : media_file) (output_dir : string) (move_files : bool) (w : world) :
  get_exif_data f = ∅ ->
  get_video_metadata f = ∅ ->
  write_fault f = false ->
  (forall digest, calculate_file_hash f = Some digest -> digest ∉ processed_files w) ->
  let folder :=
    PyStr.join (PyStr.join (PyStr.join output_dir (year_folder (creation_time f)))
                  (month_folder (creation_time f))) "Unknown_Location" in
  (exists dest_file,
     destination_file (dest_tree w) folder (file_name f) = Some dest_file /\
     (dest_tree w !! PyStr.join folder (file_name f) = None ->
      dest_file = PyStr.join folder (file_name f)) /\
     (process_file f output_dir move_files w).1 = true /\
     dest_tree (process_file f output_dir move_files w).2
       = <[dest_file := file_bytes f]> (dest_tree w)) /\
  (forall d, creation_time f = Some d ->
     folder = PyStr.join (PyStr.join (PyStr.join output_dir (pretty (year d)))
                (two_digits (month d) +:+ "-" +:+ month_name (month d)))
                "Unknown_Location") /\
  (creation_time f = None ->
   folder = PyStr.join (PyStr.join (PyStr.join output_dir "Unknown_Year")
              "Unknown_Month") "Unknown_Location").
Proof.
  intros Hexif Hvideo Hwrite Hnew folder.
  split; [|split; [intros d Hd | intros Hd]; subst folder; by rewrite Hd].
  assert (forall w0, dest_tree w0 = dest_tree w ->
            exists w1, dest_tree w1 = dest_tree w /\
              organize_file f output_dir move_files w0
              = place_file f move_files folder w1) as Horg.
  { intros w0 Ht. unfold organize_file.
    pose proof (extract_metadata_same_files f w0) as (_ & Ht1 & _).
    assert ((extract_metadata f w0).1 = (∅, ∅)) as Hmeta.
    { unfold extract_metadata. rewrite Hexif, Hvideo. by repeat case_match. }
    destruct (extract_metadata f w0) as [[exif_data video_data] w1].
    simpl in Ht1, Hmeta. injection Hmeta as -> ->.
    rewrite (bool_decide_eq_true_2 ((∅ : gmap string val) = ∅)) by done.
    unfold get_date_taken.
    rewrite (bool_decide_eq_true_2 ((∅ : gmap string val) = ∅)) by done.
    rewrite (bool_decide_eq_true_2 ((∅ : gmap string string) = ∅)) by done.
    exists w1. split; [congruence | done]. }
  assert (exists w0, dest_tree w0 = dest_tree w /\
            process_file f output_dir move_files w
            = organize_file f output_dir move_files w0) as (w0 & Ht0 & ->).
  { unfold process_file. destruct (calculate_file_hash f) as [digest|] eqn:Hh.
    - rewrite (bool_decide_eq_false_2 (digest ∈ processed_files w)) by by apply Hnew.
      rewrite andb_false_r. eexists. split; [|done]. by destruct (negb _).
    - by exists w. }
  destruct (Horg w0 Ht0) as (w1 & Ht1 & ->).
  destruct (place_file_spec f move_files folder w1) as (dest_file & Hdest & Hfree & ->).
  rewrite Hwrite. rewrite Ht1 in Hdest, Hfree.
  exists dest_file. split; [done|]. split; [|split; [done|simpl; by rewrite Ht1]].
  intros Hbare. unfold destination_file in Hdest. simpl in Hdest.
  rewrite bool_decide_eq_false_2 in Hdest by (rewrite Hbare; by intros [? ?]).
  congruence.
Qed.

(** ** Video metadata *)

Lemma video_line_value video_data line :
  video_line video_data line
  = match line_value line with
    | Some date_str => <["creation_date" := date_str]> video_data
    | None => video_data
    end.
Proof. unfold video_line, line_value. by destruct (_ || _). Qed.

Lemma omap_cons_case {A B} (g : A -> option B) (x : A) (l : list A) :
  omap g (x :: l) = match g x with
                    | Some y => y :: omap g l
                    | None => omap g l
                    end.
Proof. done. Qed.

Lemma foldl_video_line lines video_data :
  foldl video_line video_data lines !! "creation_date"
  = match last (omap line_value lines) with
    | Some date_str => Some date_str
    | None => video_data !! "creation_date"
    end.
Proof.
  revert video_data. induction lines as [|line lines IH]; intros video_data.
  { done. }
  cbn [foldl]. rewrite IH, video_line_value, omap_cons_case.
  destruct (line_value line) as [date_str|]; [|done].
  destruct (omap line_value lines) as [|x rest].
  - simpl. by rewrite lookup_insert_eq.
  - rewrite !last_cons. by destruct (last rest).
Qed.

(** C7, as the code has it.  With hachoir available, the creation-date
    string handed to date resolution is the value of the last exported line
    that contains "Creation date" or "Date" and the separator ": "; every
    matching line overwrites the one before. *)
Theorem video_creation_date_last_match (f : media_file) (lines : list string) :
  HACHOIR_SUPPORT = true ->
  video_meta f = VideoLines lines ->
  get_video_metadata f !! "creation_date" = last (omap line_value lines).
Proof.
  intros Hsup Hlines. unfold get_video_metadata. rewrite Hsup, Hlines. simpl.
  rewrite foldl_video_line, lookup_empty. by destruct (last _).
Qed.

(** ** Not-a-number *)

Lemma SFeqb_refl_false s : SFeqb s s = false -> s = S754_nan.
Proof.
  destruct s as [sg|sg| |sg m e]; [| |done|].
  - destruct sg; intros H; by vm_compute in H.
  - destruct sg; intros H; by vm_compute in H.
  - unfold SFeqb, SFcompare.
    destruct sg; rewrite Z.compare_refl, Pos.compare_cont_refl; done.
Qed.





(** ** GPS decoding *)

Lemma convert_to_degrees_triplet items d m s :
  (3 <= length items)%nat ->
  py_float (nth 0 items PNone) = Ok d ->
  py_float (nth 1 items PNone) = Ok m ->
  py_float (nth 2 items PNone) = Ok s ->
  convert_to_degrees (PTuple items) = Ok (d + m / 60 + s / 3600)%float /\
  convert_to_degrees (PList items) = Ok (d + m / 60 + s / 3600)%float.
Proof.
  intros Hlen Hd Hm Hs. unfold convert_to_degrees, degrees_of, as_sequence.
  apply Nat.leb_le in Hlen. by rewrite Hlen, Hd, Hm, Hs.
Qed.

(** [get_gps_info] when both components are present and convert. *)
Lemma get_gps_info_present exif_data gps lat_data lon_data lat lon :
  exif_data !! "GPSInfo" = Some (PDict gps) ->
  gps !! "GPSLatitude" = Some lat_data ->
  gps !! "GPSLongitude" = Some lon_data ->
  truthy lat_data = true ->
  truthy lon_data = true ->
  convert_to_degrees lat_data = Ok lat ->
  convert_to_degrees lon_data = Ok lon ->
  get_gps_info exif_data
  = (Some (if eq_str (dict_get_default gps "GPSLatitudeRef" (PStr "N")) "S"
           then (- lat)%float else lat),
     Some (if eq_str (dict_get_default gps "GPSLongitudeRef" (PStr "E")) "W"
           then (- lon)%float else lon)).
Proof.
  intros Hgps Hlat Hlon Htlat Htlon Hclat Hclon.
  unfold get_gps_info, dict_get. rewrite Hgps. simpl.
  assert (gps <> ∅) as Hne by (intros ->; by rewrite lookup_empty in Hlat).
  rewrite (bool_decide_eq_false_2 (gps = ∅)) by done. simpl.
  by rewrite Hlat, Hlon; simpl; rewrite Htlat, Hclat; simpl; rewrite Htlon, Hclon.
Qed.

(** C4.  A sequence of at least three numbers converts to
    degrees + minutes/60 + seconds/3600 and a single number to itself; with
    both components present [get_gps_info] returns them, the latitude negated
    under the reference 'S' and the longitude under 'W'.  Latitude (10, 0, 0)
    south and longitude (20, 0, 0) east decode to (-10.0, 20.0). *)
Theorem gps_decoding :
  (forall items d m s,
     (3 <= length items)%nat ->
     py_float (nth 0 items PNone) = Ok d ->
     py_float (nth 1 items PNone) = Ok m ->
     py_float (nth 2 items PNone) = Ok s ->
     convert_to_degrees (PTuple items) = Ok (d + m / 60 + s / 3600)%float /\
     convert_to_degrees (PList items) = Ok (d + m / 60 + s / 3600)%float) /\
  (forall value x,
     as_sequence value = None ->
     py_float value = Ok x ->
     convert_to_degrees value = Ok x) /\
  (forall exif_data gps lat_data lon_data lat lon,
     exif_data !! "GPSInfo" = Some (PDict gps) ->
     gps !! "GPSLatitude" = Some lat_data ->
     gps !! "GPSLongitude" = Some lon_data ->
     truthy lat_data = true ->
     truthy lon_data = true ->
     convert_to_degrees lat_data = Ok lat ->
     convert_to_degrees lon_data = Ok lon ->
     get_gps_info exif_data
     = (Some (if eq_str (dict_get_default gps "GPSLatitudeRef" (PStr "N")) "S"
              then (- lat)%float else lat),
        Some (if eq_str (dict_get_default gps "GPSLongitudeRef" (PStr "E")) "W"
              then (- lon)%float else lon))) /\
  get_gps_info Sample.exif_south_east = (Some (-10)%float, Some 20%float).
Proof.
  split; [exact convert_to_degrees_triplet|].
  split.
  { intros value x Hseq Hx. unfold convert_to_degrees, degrees_of. by rewrite Hseq, Hx. }
  split; [exact get_gps_info_present|].
  by vm_compute.
Qed.



(** ** The geocode cache *)

Lemma cache_lookup_app key c1 c2 :
  cache_lookup key (c1 ++ c2)
  = match cache_lookup key c1 with
    | Some name => Some name
    | None => cache_lookup key c2
    end.
Proof.
  induction c1 as [|[k name] c1 IH]; simpl; [done|].
  by destruct (key_eqb k key).
Qed.

Lemma cache_lookup_miss key c k name :
  cache_lookup key c = None -> (k, name) ∈ c -> key_eqb k key = false.
Proof.
  induction c as [|[k' name'] c IH]; simpl; intros Hmiss Hin.
  - by apply elem_of_nil in Hin.
  - destruct (key_eqb k' key) eqn:Hk; [done|].
    apply elem_of_cons in Hin as [[= -> ->] | Hin]; [done | by apply IH].
Qed.

Lemma cache_store_miss key name c :
  cache_lookup key c = None -> cache_store key name c = (c ++ [(key, name)])%list.
Proof.
  induction c as [|[k old] c IH]; simpl; [done|].
  destruct (key_eqb k key); [done|]. intros H. by rewrite IH.
Qed.

Lemma same_geo_refl w : same_geo w w.
Proof. by split. Qed.

Lemma same_geo_step_same w1 w2 w3 w4 :
  same_geo w1 w2 -> geo_step w2 w3 -> same_geo w3 w4 -> geo_step w1 w4.
Proof.
  intros [Hc12 Hr12] Hstep [Hc34 Hr34].
  destruct Hstep as [[Hc Hr] | la lo name Hmiss Hc Hr].
  - apply geo_quiet. split; congruence.
  - apply (geo_request _ _ la lo name); congruence.
Qed.

(** A lookup either leaves the world as it is (absent coordinate or cache
    hit) or issues one request after a miss and stores the answer. *)
Lemma get_location_name_step lat lon w :
  (get_location_name lat lon w).2 = w \/
  exists la lo name,
    lat = Some la /\ lon = Some lo /\
    cache_lookup (cache_key (la, lo)) (location_cache w) = None /\
    location_cache (get_location_name lat lon w).2
      = (location_cache w ++ [(cache_key (la, lo), name)])%list /\
    geocode_requests (trace (get_location_name lat lon w).2)
      = (la, lo) :: geocode_requests (trace w).
Proof.
  unfold get_location_name.
  destruct (negb (truthy_float lat) || negb (truthy_float lon)); [by left|].
  destruct lat as [la|], lon as [lo|]; try by left.
  change (round3 la, round3 lo) with (cache_key (la, lo)).
  destruct (cache_lookup _ _) eqn:Hmiss; [by left|].
  right. exists la, lo.
  destruct (compose_name _) as [[name|]|e]; eexists; simpl;
    by rewrite (cache_store_miss _ _ _ Hmiss).
Qed.

(** A present coordinate whose key misses the cache costs one request, and
    whatever the reply (a name, nothing, an exception) an entry is stored
    under the key. *)
Lemma get_location_name_miss la lo w :
  truthy_float (Some la) = true -> truthy_float (Some lo) = true ->
  cache_lookup (cache_key (la, lo)) (location_cache w) = None ->
  exists name,
    location_cache (get_location_name (Some la) (Some lo) w).2
      = (location_cache w ++ [(cache_key (la, lo), name)])%list /\
    geocode_requests (trace (get_location_name (Some la) (Some lo) w).2)
      = (la, lo) :: geocode_requests (trace w).
Proof.
  intros Hla Hlo Hmiss. unfold get_location_name.
  rewrite Hla, Hlo. simpl.
  change (round3 la, round3 lo) with (cache_key (la, lo)). rewrite Hmiss.
  destruct (compose_name _) as [[name|]|e]; eexists; simpl;
    by rewrite (cache_store_miss _ _ _ Hmiss).
Qed.

Lemma get_location_name_geo_step lat lon w :
  geo_step w (get_location_name lat lon w).2.
Proof.
  destruct (get_location_name_step lat lon w)
    as [-> | (la & lo & name & _ & _ & Hmiss & Hc & Hr)].
  - apply geo_quiet, same_geo_refl.
  - by apply (geo_request _ _ la lo name).
Qed.

Lemma extract_metadata_same_geo f w : same_geo w (extract_metadata f w).2.
Proof. unfold extract_metadata. by repeat case_match. Qed.

Lemma extract_metadata_tags f w w' :
  (extract_metadata f w).1 = (extract_metadata f w').1.
Proof. unfold extract_metadata. by repeat case_match. Qed.

Lemma place_file_same_geo f move_files dest_folder w :
  same_geo w (place_file f move_files dest_folder w).2.
Proof.
  destruct (place_file_spec f move_files dest_folder w) as (dest_file & _ & _ & ->).
  destruct (write_fault f); [by destruct (fault_leaves f)|].
  by destruct move_files.
Qed.

Lemma organize_file_geo_step f output_dir move_files w :
  geo_step w (organize_file f output_dir move_files w).2.
Proof.
  unfold organize_file.
  pose proof (extract_metadata_same_geo f w) as H1.
  destruct (extract_metadata f w) as [[exif_data video_data] w1]. simpl in H1.
  destruct (if bool_decide (exif_data = ∅) then _ else _) as [lat lon].
  assert (geo_step w1 (resolve_location lat lon w1).2) as H2.
  { unfold resolve_location. destruct (_ && _);
      [apply get_location_name_geo_step | apply geo_quiet, same_geo_refl]. }
  destruct (resolve_location lat lon w1) as [location w2]. simpl in H2.
  eapply same_geo_step_same; [exact H1 | exact H2 | apply place_file_same_geo].
Qed.

Lemma process_file_geo_step f output_dir move_files w :
  geo_step w (process_file f output_dir move_files w).2.
Proof.
  unfold process_file.
  destruct (calculate_file_hash f) as [digest|]; [|apply organize_file_geo_step].
  destruct (negb (digest =? "")%string && _); [apply geo_quiet, same_geo_refl|].
  eapply same_geo_step_same;
    [|apply organize_file_geo_step|apply same_geo_refl].
  by destruct (negb _).
Qed.

(** The invariant of a run that started in [w0]. *)
Lemma geo_steps_invariant w0 w :
  rtc geo_step w0 w ->
  exists new added,
    geocode_requests (trace w) = (new ++ geocode_requests (trace w0))%list /\
    location_cache w = (location_cache w0 ++ added)%list /\
    distinct_keys new /\
    Forall (fun r => cache_lookup (cache_key r) (location_cache w0) = None) new /\
    Forall (fun r => exists name, (cache_key r, name) ∈ location_cache w) new.
Proof.
  intros Hrun. revert w Hrun. apply rtc_ind_r.
  { exists [], []. rewrite app_nil_r. by repeat split. }
  intros w1 w Hrun Hstep (new & added & Hr & Hc & Hd & Hm & Hs).
  destruct Hstep as [[Hc' Hr'] | la lo name Hmiss Hc' Hr'].
  - exists new, added. rewrite Hr', Hc'. by repeat split.
  - exists ((la, lo) :: new), (added ++ [(cache_key (la, lo), name)])%list.
    rewrite Hr', Hc', Hr, Hc, <- app_assoc.
    split; [done|]. split; [done|]. split; [|split].
    + split; [|done].
      apply Forall_forall. intros e He.
      apply (proj1 (Forall_forall _ _) Hs) in He as [name' He].
      by apply (cache_lookup_miss _ _ _ _ Hmiss He).
    + constructor; [|done].
      rewrite Hc, cache_lookup_app in Hmiss. by destruct (cache_lookup _ (location_cache w0)).
    + constructor.
      * exists name. rewrite !elem_of_app, list_elem_of_singleton. by right; right.
      * apply Forall_forall. intros e He.
        apply (proj1 (Forall_forall _ _) Hs) in He as [name' He].
        exists name'. rewrite Hc in He. rewrite app_assoc. apply elem_of_app. by left.
Qed.


Lemma foldl_count_file_steps output_dir move_files files acc :
  rtc geo_step acc.2 (foldl (count_file output_dir move_files) acc files).2.
Proof.
  revert acc. induction files as [|f files IH]; intros acc; simpl; [done|].
  eapply rtc_l; [|apply IH].
  unfold count_file.
  pose proof (process_file_geo_step f output_dir move_files acc.2) as H.
  by destruct (process_file f output_dir move_files acc.2).
Qed.


(** C10.  A coordinate with a zero latitude or a zero longitude is treated
    as absent: [get_location_name] returns "Unknown_Location" and leaves the
    world as it is (no cache lookup, no request), and so does the expression
    of [process_file] that guards it.  A file whose decoded coordinate has a
    zero component is either skipped as a duplicate or placed below
    [year/month/Unknown_Location], with the cache and the requests of the
    world it started in. *)
Theorem zero_coordinate_is_unknown (lat lon : float) :
  (lat =? 0)%float = true \/ (lon =? 0)%float = true ->
  (forall w, get_location_name (Some lat) (Some lon) w = ("Unknown_Location", w)) /\
  (forall w, resolve_location (Some lat) (Some lon) w = ("Unknown_Location", w)) /\
  (forall f output_dir move_files w,
     get_gps_info (extract_metadata f w).1.1 = (Some lat, Some lon) ->
     process_file f output_dir move_files w = (false, w) \/
     exists w0,
       same_geo w w0 /\
       process_file f output_dir move_files w
       = place_file f move_files
           (PyStr.join (PyStr.join (PyStr.join output_dir
              (year_folder (get_date_taken f (extract_metadata f w).1.1
                              (extract_metadata f w).1.2)))
              (month_folder (get_date_taken f (extract_metadata f w).1.1
                               (extract_metadata f w).1.2)))
              "Unknown_Location") w0).
Proof.
  intros Hzero.
  assert (truthy_float (Some lat) && truthy_float (Some lon) = false) as Hfalsy.
  { simpl. destruct Hzero as [-> | ->]; [done | by rewrite andb_false_r]. }
  assert (forall w, get_location_name (Some lat) (Some lon) w = ("Unknown_Location", w)) as Hname.
  { intros w. unfold get_location_name.
    rewrite <- negb_andb, Hfalsy. done. }
  assert (forall w, resolve_location (Some lat) (Some lon) w = ("Unknown_Location", w)) as Hres.
  { intros w. unfold resolve_location. by rewrite Hfalsy. }
  split; [done|]. split; [done|].
  intros f output_dir move_files w Hgps.
  assert (forall w0, same_geo w w0 ->
            exists w1, same_geo w w1 /\
              organize_file f output_dir move_files w0
              = place_file f move_files
                  (PyStr.join (PyStr.join (PyStr.join output_dir
                     (year_folder (get_date_taken f (extract_metadata f w).1.1
                                     (extract_metadata f w).1.2)))
                     (month_folder (get_date_taken f (extract_metadata f w).1.1
                                      (extract_metadata f w).1.2)))
                     "Unknown_Location") w1) as Horg.
  { intros w0 [Hc0 Hr0]. unfold organize_file.
    pose proof (extract_metadata_same_geo f w0) as [Hc1 Hr1].
    rewrite (extract_metadata_tags f w w0) in Hgps |- *.
    destruct (extract_metadata f w0) as [[exif_data video_data] w1]. simpl in *.
    exists w1. split; [split; congruence|].
    case_bool_decide as Hempty.
    - by unfold resolve_location.
    - by rewrite Hgps, Hres. }
  unfold process_file.
  destruct (calculate_file_hash f) as [digest|].
  - destruct (negb (digest =? "")%string && _); [by left|].
    right. apply Horg. by destruct (negb _).
  - right. apply Horg, same_geo_refl.
Qed.

(** ** What one file and a whole run do to the destination tree *)

(** The gate either fires, and nothing happens, or hands the file to the rest
    of the pipeline in a world that differs at most by the new digest. *)
Lemma process_file_gate f output_dir move_files w :
  (duplicate f w /\ process_file f output_dir move_files w = (false, w)) \/
  (~ duplicate f w /\
   exists w0,
     dest_tree w0 = dest_tree w /\ trace w0 = trace w /\
     location_cache w0 = location_cache w /\
     process_file f output_dir move_files w = organize_file f output_dir move_files w0).
Proof.
  unfold process_file, duplicate.
  destruct (calculate_file_hash f) as [digest|].
  - destruct (String.eqb_spec digest "") as [->|Hne]; simpl.
    + right. split; [|by exists w]. intros (d & [= <-] & Hd & _). done.
    + case_bool_decide as Hin.
      * left. split; [by exists digest|done].
      * right. split; [|by eexists (add_digest digest w)].
        intros (d & [= <-] & _ & Hd). done.
  - right. split; [|by exists w]. by intros (d & Hd & _).
Qed.

(** The flag of [process_file] and what it did to the files. *)
Lemma process_file_written f output_dir move_files w :
  ((process_file f output_dir move_files w).1 = false /\
   (dest_tree (process_file f output_dir move_files w).2 = dest_tree w \/
    exists dest_file n,
      write_fault f = true /\ fault_leaves f = Some n /\
      dest_tree w !! dest_file = None /\
      dest_tree (process_file f output_dir move_files w).2
        = <[dest_file := take n (file_bytes f)]> (dest_tree w)) /\
   written_paths (trace (process_file f output_dir move_files w).2)
   = written_paths (trace w)) \/
  ((process_file f output_dir move_files w).1 = true /\
   exists dest_file,
     dest_tree w !! dest_file = None /\
     dest_tree (process_file f output_dir move_files w).2
       = <[dest_file := file_bytes f]> (dest_tree w) /\
     written_paths (trace (process_file f output_dir move_files w).2)
       = dest_file :: written_paths (trace w)).
Proof.
  destruct (process_file_gate f output_dir move_files w)
    as [[_ ->] | [_ (w0 & Ht & Htr & _ & ->)]].
  { left. split; [done|]. split; [by left | done]. }
  destruct (organize_file_spec f output_dir move_files w0) as [_ Hspec].
  rewrite Ht, Htr in Hspec.
  destruct (write_fault f).
  - destruct Hspec as (Hflag & Ht' & Hw'). left. split; [done|]. split; [|done].
    destruct (fault_leaves f) as [n|]; [|by left].
    destruct Ht' as (dest_file & Hfree & Ht'). right. by exists dest_file, n.
  - destruct Hspec as (Hflag & dest_file & Hfree & Ht' & Hw'). right.
    split; [done|]. by exists dest_file.
Qed.

(** Existing paths keep their content. *)
Lemma process_file_keeps f output_dir move_files w p content :
  dest_tree w !! p = Some content ->
  dest_tree (process_file f output_dir move_files w).2 !! p = Some content.
Proof.
  intros Hp.
  destruct (process_file_files f output_dir move_files w) as [Hsub _].
  by eapply lookup_weaken.
Qed.

(** Past the gate the flag tells whether the write went through. *)
Lemma process_file_flag f output_dir move_files w :
  ~ duplicate f w ->
  (process_file f output_dir move_files w).1 = negb (write_fault f).
Proof.
  intros Hnd.
  destruct (process_file_gate f output_dir move_files w)
    as [[Hdup _] | [_ (w0 & _ & _ & _ & ->)]]; [done|].
  destruct (organize_file_spec f output_dir move_files w0) as [_ Hspec].
  by destruct (write_fault f); destruct Hspec as [-> _].
Qed.

(** X1.  In copy mode [process_file] never overwrites: every path of the
    destination tree keeps its content.  When it returns [True] exactly one
    path was added, it did not exist before, and it holds the bytes of the
    source file.  When it returns [False] the tree is as it was, or has one
    new path that holds the first bytes of the source: the target of a copy
    that raised after creating it.  For a duplicate, and for a write that
    fails before the target is created, the tree is as it was. *)
Theorem process_file_never_overwrites
  (f : media_file) (output_dir : string) (w : world) :
  (forall p content,
     dest_tree w !! p = Some content ->
     dest_tree (process_file f output_dir false w).2 !! p = Some content) /\
  ((process_file f output_dir false w).1 = true ->
   exists dest_file,
     dest_tree w !! dest_file = None /\
     dest_tree (process_file f output_dir false w).2
       = <[dest_file := file_bytes f]> (dest_tree w)) /\
  ((process_file f output_dir false w).1 = false ->
   dest_tree (process_file f output_dir false w).2 = dest_tree w \/
   exists dest_file n,
     write_fault f = true /\ fault_leaves f = Some n /\
     dest_tree w !! dest_file = None /\
     dest_tree (process_file f output_dir false w).2
       = <[dest_file := take n (file_bytes f)]> (dest_tree w)) /\
  (duplicate f w \/ fault_leaves f = None ->
   (process_file f output_dir false w).1 = false ->
   dest_tree (process_file f output_dir false w).2 = dest_tree w).
Proof.
  split; [intros p content; apply process_file_keeps|].
  destruct (process_file_written f output_dir false w)
    as [(Hflag & Ht & _) | (Hflag & dest_file & Hfree & Ht & _)];
    rewrite Hflag.
  - split; [done|]. split; [done|].
    intros [Hdup | Hnone] _.
    + destruct (process_file_gate f output_dir false w)
        as [[_ ->] | [Hnd _]]; done.
    + destruct Ht as [Ht | (dest_file & n & _ & Hn & _)]; [done | congruence].
  - split; [|done]. intros _. by exists dest_file.
Qed.

(** X2.  [process_file] returns [True] exactly when the file is not caught by
    the duplicate gate and neither [mkdir] nor the copy or move raises.
    Missing or unreadable metadata, a failed hash and a failed geocoder
    request never make it fail. *)
Theorem process_file_succeeds_iff
  (f : media_file) (output_dir : string) (move_files : bool) (w : world) :
  (process_file f output_dir move_files w).1 = true
  <-> (~ duplicate f w /\ write_fault f = false).
Proof.
  destruct (process_file_gate f output_dir move_files w)
    as [[Hdup ->] | [Hdup (w0 & _ & _ & _ & ->)]].
  - simpl. split; [done | by intros [? _]].
  - destruct (organize_file_spec f output_dir move_files w0) as [_ Hspec].
    destruct (write_fault f).
    + destruct Hspec as [-> _]. split; [done | by intros [_ ?]].
    + by destruct Hspec as [-> _].
Qed.

(** X3.  The digest is recorded before the file is written.  So when the
    write of the first of two readable files with the same digest fails, the
    second is still skipped as a duplicate: the run counts no success and
    completes no write, and the digest stays recorded.  All that the run can
    add to the tree is the target that the failed write left behind, with
    the first bytes of the first file; the second file is not written
    anywhere. *)
Theorem failed_write_blocks_duplicate
  (f1 f2 : media_file) (output_dir : string) (move_files : bool) (w : world) :
  (forall content, md5_hexdigest content <> "") ->
  read_fault f1 = false ->
  read_fault f2 = false ->
  md5_hexdigest (file_bytes f2) = md5_hexdigest (file_bytes f1) ->
  is_supported_file f1 = true ->
  is_supported_file f2 = true ->
  write_fault f1 = true ->
  (let w1 := (process_file f1 output_dir move_files w).2 in
   process_file f2 output_dir move_files w1 = (false, w1)) /\
  (organize_media [f1; f2] output_dir move_files w).1 = 0 /\
  written_paths (trace (organize_media [f1; f2] output_dir move_files w).2)
    = written_paths (trace w) /\
  md5_hexdigest (file_bytes f1)
    ∈ processed_files (organize_media [f1; f2] output_dir move_files w).2 /\
  (dest_tree (organize_media [f1; f2] output_dir move_files w).2 = dest_tree w \/
   exists dest_file n,
     fault_leaves f1 = Some n /\
     dest_tree w !! dest_file = None /\
     dest_tree (organize_media [f1; f2] output_dir move_files w).2
       = <[dest_file := take n (file_bytes f1)]> (dest_tree w)) /\
  (fault_leaves f1 = None ->
   dest_tree (organize_media [f1; f2] output_dir move_files w).2 = dest_tree w).
Proof.
  intros Hne Hr1 Hr2 Hsame Hs1 Hs2 Hw1.
  assert (calculate_file_hash f1 = Some (md5_hexdigest (file_bytes f1))) as Hh1
    by (unfold calculate_file_hash; by rewrite Hr1).
  assert (calculate_file_hash f2 = Some (md5_hexdigest (file_bytes f1))) as Hh2
    by (unfold calculate_file_hash; by rewrite Hr2, Hsame).
  pose proof (process_file_records f1 output_dir move_files w _ Hh1 (Hne _)) as Hin.
  pose proof (process_file_skip f2 output_dir move_files
                (process_file f1 output_dir move_files w).2 _ Hh2 (Hne _) Hin) as Hskip.
  split; [exact Hskip|].
  assert ((process_file f1 output_dir move_files w).1 = false) as Hflag.
  { destruct (process_file_gate f1 output_dir move_files w)
      as [[_ ->] | [_ (w0 & _ & _ & _ & ->)]]; [done|].
    destruct (organize_file_spec f1 output_dir move_files w0) as [_ Hspec].
    rewrite Hw1 in Hspec. by destruct Hspec as [-> _]. }
  assert (organize_media [f1; f2] output_dir move_files w
          = (0, (process_file f1 output_dir move_files w).2)) as ->.
  { unfold organize_media. rewrite !filter_cons, Hs1, Hs2. simpl.
    unfold count_file at 2. simpl.
    destruct (process_file f1 output_dir move_files w) as [ok w1]. simpl in *.
    subst ok. unfold count_file. simpl. by rewrite Hskip. }
  simpl.
  destruct (process_file_written f1 output_dir move_files w)
    as [(_ & Ht & Hwr) | (Htrue & _)]; [|congruence].
  split; [done|]. split; [done|]. split; [done|]. split.
  - destruct Ht as [Ht | (dest_file & n & _ & Hn & Hfree & Ht)]; [by left|].
    right. by exists dest_file, n.
  - intros Hnone.
    destruct Ht as [Ht | (dest_file & n & _ & Hn & _)]; [done | congruence].
Qed.

(** X4.  Files are told apart by digest, not by name: two readable, writable
    files with different digests that were not seen before are both written,
    to two different paths, each holding its own bytes, even when they have
    the same name and land in the same folder. *)
Theorem distinct_digests_both_written
  (f1 f2 : media_file) (output_dir : string) (move_files : bool) (w : world) :
  (forall content, md5_hexdigest content <> "") ->
  read_fault f1 = false ->
  read_fault f2 = false ->
  md5_hexdigest (file_bytes f1) <> md5_hexdigest (file_bytes f2) ->
  md5_hexdigest (file_bytes f1) ∉ processed_files w ->
  md5_hexdigest (file_bytes f2) ∉ processed_files w ->
  is_supported_file f1 = true ->
  is_supported_file f2 = true ->
  write_fault f1 = false ->
  write_fault f2 = false ->
  exists dest1 dest2,
    dest1 <> dest2 /\
    (organize_media [f1; f2] output_dir move_files w).1 = 2 /\
    written_paths (trace (organize_media [f1; f2] output_dir move_files w).2)
      = dest2 :: dest1 :: written_paths (trace w) /\
    dest_tree (organize_media [f1; f2] output_dir move_files w).2 !! dest1
      = Some (file_bytes f1) /\
    dest_tree (organize_media [f1; f2] output_dir move_files w).2 !! dest2
      = Some (file_bytes f2).
Proof.
  intros Hne Hr1 Hr2 Hdiff Hn1 Hn2 Hs1 Hs2 Hw1 Hw2.
  assert (calculate_file_hash f1 = Some (md5_hexdigest (file_bytes f1))) as Hh1
    by (unfold calculate_file_hash; by rewrite Hr1).
  assert (calculate_file_hash f2 = Some (md5_hexdigest (file_bytes f2))) as Hh2
    by (unfold calculate_file_hash; by rewrite Hr2).
  assert (exists dest1 dest2 w',
            dest1 <> dest2 /\
            organize_media [f1; f2] output_dir move_files w = (2, w') /\
            written_paths (trace w') = dest2 :: dest1 :: written_paths (trace w) /\
            dest_tree w' !! dest1 = Some (file_bytes f1) /\
            dest_tree w' !! dest2 = Some (file_bytes f2))
    as (dest1 & dest2 & w' & Hd & -> & Hrun); [|by exists dest1, dest2].
  unfold organize_media. rewrite !filter_cons, Hs1, Hs2. simpl.
  unfold count_file at 2. simpl.
  assert (~ duplicate f1 w) as Hnd1.
  { intros (d & Hd & _ & Hin). rewrite Hh1 in Hd. by injection Hd as <-. }
  pose proof (process_file_flag f1 output_dir move_files w Hnd1) as Hok1.
  rewrite Hw1 in Hok1. simpl in Hok1.
  assert (processed_files (process_file f1 output_dir move_files w).2
          = {[md5_hexdigest (file_bytes f1)]} ∪ processed_files w) as Hseen.
  { unfold process_file. rewrite Hh1.
    pose proof (Hne (file_bytes f1)) as Hne1.
    apply String.eqb_neq in Hne1. rewrite Hne1. simpl.
    rewrite bool_decide_eq_false_2 by done.
    by destruct (organize_file_spec f1 output_dir move_files
                   (add_digest (md5_hexdigest (file_bytes f1)) w)) as [-> _]. }
  destruct (process_file_written f1 output_dir move_files w)
    as [(Hfalse & _) | (_ & dest1 & Hfree1 & Ht1 & Hwr1)]; [congruence|].
  destruct (process_file f1 output_dir move_files w) as [ok1 w1]. simpl in *.
  subst ok1. unfold count_file. simpl.
  assert (~ duplicate f2 w1) as Hnd2.
  { intros (d & Hd & _ & Hin). rewrite Hh2 in Hd. injection Hd as <-.
    rewrite Hseen in Hin. apply elem_of_union in Hin as [Hin|Hin]; [|done].
    apply elem_of_singleton in Hin. congruence. }
  pose proof (process_file_flag f2 output_dir move_files w1 Hnd2) as Hok2.
  rewrite Hw2 in Hok2. simpl in Hok2.
  destruct (process_file_written f2 output_dir move_files w1)
    as [(Hfalse & _) | (_ & dest2 & Hfree2 & Ht2 & Hwr2)]; [congruence|].
  destruct (process_file f2 output_dir move_files w1) as [ok2 w2]. simpl in *.
  subst ok2. exists dest1, dest2, w2.
  assert (dest1 <> dest2) as Hd.
  { intros ->. rewrite Ht1, lookup_insert_eq in Hfree2. done. }
  split; [done|]. split; [done|]. split; [by rewrite Hwr2, Hwr1|].
  rewrite Ht2, Ht1. split.
  - rewrite lookup_insert_ne by done. apply lookup_insert_eq.
  - apply lookup_insert_eq.
Qed.

Lemma foldl_count_file_count output_dir move_files files acc :
  exists new,
    written_paths (trace (foldl (count_file output_dir move_files) acc files).2)
    = (new ++ written_paths (trace acc.2))%list /\
    (foldl (count_file output_dir move_files) acc files).1 = acc.1 + length new /\
    length new <= length files /\
    (forall p content,
       dest_tree acc.2 !! p = Some content ->
       dest_tree (foldl (count_file output_dir move_files) acc files).2 !! p
       = Some content).
Proof.
  revert acc. induction files as [|f files IH]; intros acc; simpl.
  { exists []. simpl. repeat split; [lia | lia | done]. }
  destruct (IH (count_file output_dir move_files acc f)) as (new & Hw & Hc & Hl & Hk).
  assert (count_file output_dir move_files acc f
          = (if (process_file f output_dir move_files acc.2).1 then S acc.1 else acc.1,
             (process_file f output_dir move_files acc.2).2)) as Hstep.
  { unfold count_file. by destruct (process_file f output_dir move_files acc.2). }
  rewrite Hstep in Hw, Hc, Hk |- *. simpl in Hw, Hc, Hk.
  pose proof (process_file_keeps f output_dir move_files acc.2) as Hkeep.
  destruct (process_file_written f output_dir move_files acc.2)
    as [(Hflag & _ & Hp) | (Hflag & dest_file & _ & _ & Hp)];
    rewrite Hflag in Hw, Hc, Hk |- *; rewrite Hp in Hw.
  - exists new. split; [done|]. split; [done|]. split; [lia|].
    intros p content Hpc. by apply Hk, Hkeep.
  - exists (new ++ [dest_file])%list. rewrite <- app_assoc. split; [done|].
    rewrite length_app. simpl. split; [lia|]. split; [lia|].
    intros p content Hpc. by apply Hk, Hkeep.
Qed.

(** X5.  The number [organize_media] reports is the number of paths written
    during the run; it is at most the number of supported files among those
    found. *)
Theorem organize_media_count
  (files : list media_file) (output_dir : string) (move_files : bool) (w : world) :
  exists new,
    written_paths (trace (organize_media files output_dir move_files w).2)
    = (new ++ written_paths (trace w))%list /\
    (organize_media files output_dir move_files w).1 = length new /\
    (organize_media files output_dir move_files w).1
    <= length (filter (fun f => is_supported_file f = true) files) /\
    length (filter (fun f => is_supported_file f = true) files) <= length files.
Proof.
  unfold organize_media.
  destruct (foldl_count_file_count output_dir move_files
              (filter (fun f => is_supported_file f = true) files) (0, w))
    as (new & Hw & Hc & Hl & _).
  exists new. simpl in *. split; [done|]. split; [done|].
  split; [lia | apply length_filter].
Qed.

(** X6.  A run only adds.  In either mode every digest seen before it is
    still recorded and every entry of the geocode cache is still there in
    the same order; in copy mode every file of the destination tree still
    has its content. *)
Theorem organize_media_only_adds
  (files : list media_file) (output_dir : string) (move_files : bool) (w : world) :
  processed_files w ⊆ processed_files (organize_media files output_dir move_files w).2 /\
  (exists added,
     location_cache (organize_media files output_dir move_files w).2
     = (location_cache w ++ added)%list) /\
  (forall p content,
     dest_tree w !! p = Some content ->
     dest_tree (organize_media files output_dir false w).2 !! p = Some content).
Proof.
  split; [apply organize_media_digests_mono|]. unfold organize_media. split.
  - destruct (geo_steps_invariant _ _
                (foldl_count_file_steps output_dir move_files
                   (filter (fun f => is_supported_file f = true) files) (0, w)))
      as (_ & added & _ & Hc & _).
    by exists added.
  - destruct (foldl_count_file_count output_dir false
                (filter (fun f => is_supported_file f = true) files) (0, w))
      as (_ & _ & _ & _ & Hk).
    exact Hk.
Qed.

(** ** Which source files a run touches *)

Lemma extends_by_refl P w : extends_by P w w.
Proof. by exists []. Qed.

Lemma extends_by_trans P w1 w2 w3 :
  extends_by P w1 w2 -> extends_by P w2 w3 -> extends_by P w1 w3.
Proof.
  intros (n1 & H1 & F1) (n2 & H2 & F2). exists (n2 ++ n1)%list.
  split; [by rewrite H2, H1, app_assoc | by apply Forall_app].
Qed.

Lemma extends_by_weaken (P Q : event -> Prop) w w' :
  (forall e, P e -> Q e) -> extends_by P w w' -> extends_by Q w w'.
Proof.
  intros HPQ (new & H & F). exists new. split; [done|].
  by eapply Forall_impl.
Qed.

(** Every event of one [process_file] that touches the source tree touches
    the file it was given. *)
Lemma process_file_touches f output_dir move_files w :
  extends_by (fun e => forall p, touched e = Some p -> p = file_path f)
    w (process_file f output_dir move_files w).2.
Proof.
  set (P := fun e => forall p, touched e = Some p -> p = file_path f).
  assert (forall e w0, P e -> extends_by P w0 (log e w0)) as Hlog.
  { intros e w0 He. exists [e]. split; [done | by constructor]. }
  assert (forall key name w0, extends_by P w0 (set_cache key name w0)) as Hcache.
  { intros key name w0. by exists []. }
  assert (forall w0, extends_by P w0 (extract_metadata f w0).2) as Hextract.
  { intros w0. unfold extract_metadata.
    destruct (_ || _); [apply Hlog; by intros p [= <-]|].
    destruct (bool_decide _); [apply Hlog; by intros p [= <-] | apply extends_by_refl]. }
  assert (forall lat lon w0, extends_by P w0 (resolve_location lat lon w0).2) as Hresolve.
  { intros lat lon w0. unfold resolve_location, get_location_name.
    destruct (_ && _); [|apply extends_by_refl].
    destruct (_ || _); [apply extends_by_refl|].
    destruct lat as [la|], lon as [lo|]; try apply extends_by_refl.
    destruct (cache_lookup _ _); [apply extends_by_refl|].
    assert (extends_by P w0 (log (EGeocode la lo) w0)) as Hreq by (by apply Hlog).
    destruct (compose_name _) as [[name|]|e]; simpl.
    - eapply extends_by_trans; [exact Hreq|].
      eapply extends_by_trans; [apply Hcache | by apply Hlog].
    - eapply extends_by_trans; [exact Hreq | apply Hcache].
    - eapply extends_by_trans; [exact Hreq | apply Hcache]. }
  assert (forall dest_folder w0,
            extends_by P w0 (place_file f move_files dest_folder w0).2) as Hplace.
  { intros dest_folder w0.
    destruct (place_file_spec f move_files dest_folder w0) as (dest_file & _ & _ & ->).
    destruct (write_fault f).
    - destruct (fault_leaves f); [by exists [] | apply extends_by_refl].
    - simpl. eexists [_]. split; [done|].
      constructor; [|done]. by destruct move_files; intros p [= <-]. }
  assert (forall w0, extends_by P w0 (organize_file f output_dir move_files w0).2) as Horg.
  { intros w0. unfold organize_file.
    pose proof (Hextract w0) as H1.
    destruct (extract_metadata f w0) as [[exif_data video_data] w1]. simpl in H1.
    destruct (if bool_decide (exif_data = ∅) then _ else _) as [lat lon].
    pose proof (Hresolve lat lon w1) as H2.
    destruct (resolve_location lat lon w1) as [location w2]. simpl in H2.
    eapply extends_by_trans; [exact H1|].
    eapply extends_by_trans; [exact H2|]. apply Hplace. }
  destruct (process_file_gate f output_dir move_files w)
    as [[_ ->] | [_ (w0 & _ & Htr & _ & ->)]]; [apply extends_by_refl|].
  destruct (Horg w0) as (new & Hnew & Hall). exists new. by rewrite <- Htr.
Qed.

Lemma foldl_count_file_touches output_dir move_files files acc :
  extends_by (fun e => forall p, touched e = Some p ->
                exists f, f ∈ files /\ p = file_path f)
    acc.2 (foldl (count_file output_dir move_files) acc files).2.
Proof.
  revert acc. induction files as [|f files IH]; intros acc; simpl.
  { apply extends_by_refl. }
  apply (extends_by_trans _ _ (count_file output_dir move_files acc f).2).
  - assert ((count_file output_dir move_files acc f).2
            = (process_file f output_dir move_files acc.2).2) as ->.
    { unfold count_file. by destruct (process_file f output_dir move_files acc.2). }
    eapply extends_by_weaken; [|apply process_file_touches].
    intros e He p Hp. exists f. split; [apply elem_of_cons; by left | by apply He].
  - eapply extends_by_weaken; [|apply IH].
    intros e He p Hp. destruct (He p Hp) as (g & Hg & ->).
    exists g. split; [apply elem_of_cons; by right | done].
Qed.

(** X7.  A run reads metadata from, and copies or moves, supported files
    only: every such event of the run names a file of the input list that
    passes [is_supported_file].  When no file passes, the run reports zero
    and leaves the world as it was. *)
Theorem organize_media_touches_supported_only
  (files : list media_file) (output_dir : string) (move_files : bool) (w : world) :
  extends_by (fun e => forall p, touched e = Some p ->
                exists f, f ∈ files /\ is_supported_file f = true /\ p = file_path f)
    w (organize_media files output_dir move_files w).2 /\
  ((forall f, f ∈ files -> is_supported_file f = false) ->
   organize_media files output_dir move_files w = (0, w)).
Proof.
  split.
  - unfold organize_media.
    eapply extends_by_weaken;
      [|apply (foldl_count_file_touches output_dir move_files _ (0, w))].
    intros e He p Hp. destruct (He p Hp) as (f & Hf & ->).
    apply list_elem_of_filter in Hf as [Hs Hf]. by exists f.
  - intros Hnone. unfold organize_media.
    assert (filter (fun f => is_supported_file f = true) files = []) as ->; [|done].
    induction files as [|f files IH]; [done|].
    rewrite filter_cons, (Hnone f) by (apply elem_of_cons; by left). simpl.
    apply IH. intros g Hg. apply Hnone, elem_of_cons. by right.
Qed.

(** ** Extensions *)

Lemma lower_ascii_dot a :
  Ascii.eqb (PyStr.lower_ascii a) "." = Ascii.eqb a ".".
Proof. destruct a as [[] [] [] [] [] [] [] []]; reflexivity. Qed.

Lemma lower_ascii_idem a :
  PyStr.lower_ascii (PyStr.lower_ascii a) = PyStr.lower_ascii a.
Proof. destruct a as [[] [] [] [] [] [] [] []]; reflexivity. Qed.

Lemma lower_idem s : PyStr.lower (PyStr.lower s) = PyStr.lower s.
Proof. induction s as [|a s IH]; simpl; [done|]. by rewrite lower_ascii_idem, IH. Qed.

Lemma length_lower s : String.length (PyStr.lower s) = String.length s.
Proof. induction s as [|a s IH]; simpl; [done|]. by rewrite IH. Qed.

Lemma rfind_dot_lower s : PyStr.rfind_dot (PyStr.lower s) = PyStr.rfind_dot s.
Proof.
  induction s as [|a s IH]; simpl; [done|].
  by rewrite IH, lower_ascii_dot.
Qed.

Lemma drop_lower i s : PyStr.drop i (PyStr.lower s) = PyStr.lower (PyStr.drop i s).
Proof.
  revert s. induction i as [|i IH]; intros [|a s]; simpl; try done.
Qed.

Lemma path_suffix_lower name :
  PyStr.path_suffix (PyStr.lower name) = PyStr.lower (PyStr.path_suffix name).
Proof.
  unfold PyStr.path_suffix, PyStr.suffix_start.
  rewrite rfind_dot_lower, length_lower.
  destruct (PyStr.rfind_dot name) as [i|]; [|done].
  destruct (_ && _); [apply drop_lower | done].
Qed.

(** X8.  Support is decided on the lower-cased extension only: two files
    whose names differ in letter case alone are both supported or both
    unsupported. *)
Theorem is_supported_file_ignores_case (f g : media_file) :
  PyStr.lower (file_name f) = PyStr.lower (file_name g) ->
  is_supported_file f = is_supported_file g.
Proof.
  intros Hsame. unfold is_supported_file.
  rewrite <- (lower_idem (PyStr.path_suffix (file_name f))).
  rewrite <- (lower_idem (PyStr.path_suffix (file_name g))).
  by rewrite <- !path_suffix_lower, Hsame.
Qed.

Lemma rfind_dot_app x t j :
  PyStr.rfind_dot t = Some j ->
  PyStr.rfind_dot (x +:+ t) = Some (String.length x + j).
Proof.
  intros Ht. induction x as [|a x IH]; [done|].
  change (String a x +:+ t) with (String a (x +:+ t)).
  simpl. by rewrite IH.
Qed.

Lemma rfind_dot_drop s i :
  PyStr.rfind_dot s = Some i -> PyStr.rfind_dot (PyStr.drop i s) = Some 0.
Proof.
  revert i. induction s as [|a s IH]; intros i; simpl; [done|].
  destruct (PyStr.rfind_dot s) as [i'|] eqn:Hs.
  - intros [= <-]. simpl. by apply IH.
  - destruct (Ascii.eqb a ".") eqn:Ha; [|done].
    intros [= <-]. simpl. by rewrite Hs, Ha.
Qed.

Lemma length_drop i s : String.length (PyStr.drop i s) = String.length s - i.
Proof. revert s. induction i as [|i IH]; intros [|a s]; simpl; try done; lia. Qed.

Lemma drop_app_length x t : PyStr.drop (String.length x) (x +:+ t) = t.
Proof. induction x as [|a x IH]; [done|]. exact IH. Qed.

Lemma take_app_length x t : PyStr.take (String.length x) (x +:+ t) = x.
Proof.
  induction x as [|a x IH]; [by destruct t|].
  change (String a x +:+ t) with (String a (x +:+ t)). simpl. by rewrite IH.
Qed.

Lemma string_app_assoc (a b c : string) : (a +:+ b) +:+ c = a +:+ (b +:+ c).
Proof.
  induction a as [|ch a IH]; [done|].
  change ((String ch a +:+ b) +:+ c) with (String ch ((a +:+ b) +:+ c)).
  by rewrite IH.
Qed.

Lemma suffix_of_app x t :
  PyStr.rfind_dot t = Some 0 ->
  1 <= String.length x ->
  2 <= String.length t ->
  PyStr.path_suffix (x +:+ t) = t /\ PyStr.path_stem (x +:+ t) = x.
Proof.
  intros Hdot Hx Ht.
  unfold PyStr.path_suffix, PyStr.path_stem, PyStr.suffix_start.
  rewrite (rfind_dot_app x t 0 Hdot), Nat.add_0_r, string_length_app.
  assert (((0 <? String.length x)%nat
           && (String.length x <? String.length x + String.length t - 1)%nat) = true)
    as ->.
  { apply andb_true_iff. split; apply Nat.ltb_lt; lia. }
  by rewrite drop_app_length, take_app_length.
Qed.

(** X9.  A supported file has an extension, and the name that the collision
    loop builds from a name with an extension keeps it: the extension of
    [stem_N suffix] is [suffix] and its stem is [stem_N].  A renamed copy is
    therefore of the same type as its source. *)
Theorem renamed_file_keeps_extension :
  (forall f, is_supported_file f = true -> PyStr.path_suffix (file_name f) <> "") /\
  (forall (name : string) (n : nat),
     PyStr.path_suffix name <> "" ->
     PyStr.path_suffix
       (PyStr.path_stem name +:+ "_" +:+ pretty n +:+ PyStr.path_suffix name)
     = PyStr.path_suffix name /\
     PyStr.path_stem
       (PyStr.path_stem name +:+ "_" +:+ pretty n +:+ PyStr.path_suffix name)
     = PyStr.path_stem name +:+ "_" +:+ pretty n).
Proof.
  split.
  - intros f. unfold is_supported_file. intros Hs Hempty.
    rewrite Hempty in Hs. by vm_compute in Hs.
  - intros name n Hsuffix.
    assert (exists i, PyStr.suffix_start name = Some i) as [i Hstart].
    { unfold PyStr.path_suffix in Hsuffix.
      destruct (PyStr.suffix_start name) as [i|]; [by exists i | done]. }
    assert (PyStr.path_suffix name = PyStr.drop i name) as Hsuf
      by (unfold PyStr.path_suffix; by rewrite Hstart).
    unfold PyStr.suffix_start in Hstart.
    destruct (PyStr.rfind_dot name) as [j|] eqn:Hdot; [|done].
    destruct ((0 <? j)%nat && (j <? String.length name - 1)%nat) eqn:Hj; [|done].
    injection Hstart as ->.
    apply andb_true_iff in Hj as [_ Hi1]. apply Nat.ltb_lt in Hi1.
    rewrite Hsuf.
    rewrite <- (string_app_assoc "_" (pretty n) (PyStr.drop i name)).
    rewrite <- string_app_assoc.
    apply suffix_of_app.
    + by apply rfind_dot_drop.
    + rewrite !string_length_app. simpl. lia.
    + rewrite length_drop. lia.
Qed.

(** ** Absent coordinates *)

(** X10.  [get_gps_info] returns both components or none.  It returns none
    when there is no GPSInfo tag, and when the latitude or the longitude is
    missing or falsy (None, zero, an empty sequence or text). *)
Theorem get_gps_info_all_or_nothing :
  (forall exif_data,
     get_gps_info exif_data = (None, None) \/
     exists lat lon, get_gps_info exif_data = (Some lat, Some lon)) /\
  (forall exif_data,
     exif_data !! "GPSInfo" = None -> get_gps_info exif_data = (None, None)) /\
  (forall exif_data gps,
     exif_data !! "GPSInfo" = Some (PDict gps) ->
     truthy (dict_get gps "GPSLatitude") = false \/
     truthy (dict_get gps "GPSLongitude") = false ->
     get_gps_info exif_data = (None, None)).
Proof.
  split; [|split].
  - intros exif_data. unfold get_gps_info.
    destruct (negb _); [by left|].
    destruct (as_dict _) as [gps|e]; simpl; [|by left].
    destruct (truthy (dict_get gps "GPSLatitude")); [|by left].
    destruct (convert_to_degrees (dict_get gps "GPSLatitude")) as [lat|e];
      simpl; [|by left].
    destruct (truthy (dict_get gps "GPSLongitude")); [|by left].
    destruct (convert_to_degrees (dict_get gps "GPSLongitude")) as [lon|e];
      simpl; [|by left].
    right. by eexists _, _.
  - intros exif_data Hnone. unfold get_gps_info, dict_get. by rewrite Hnone.
  - intros exif_data gps Hgps Hfalsy.
    assert (dict_get exif_data "GPSInfo" = PDict gps) as Hg
      by (unfold dict_get; by rewrite Hgps).
    unfold get_gps_info. rewrite Hg.
    destruct (negb (truthy (PDict gps))); [done|].
    cbn [as_dict bind].
    destruct (truthy (dict_get gps "GPSLatitude")); [|done].
    destruct Hfalsy as [? | Hlon]; [done|].
    destruct (convert_to_degrees (dict_get gps "GPSLatitude")) as [lat|e];
      simpl; [|done].
    by rewrite Hlon.
Qed.

(** X11.  Only ValueError, TypeError and ZeroDivisionError are turned into
    0.0.  An OverflowError, and any other exception, that the conversion of
    a component raises leaves [convert_to_degrees] as it is, and these are
    the only exceptions that leave it; [get_gps_info] then gives up the whole
    coordinate, whatever the other component is.  An integer too large for a
    float is such a case, and so is an object whose own conversion fails
    with an exception of another class. *)
Theorem uncaught_conversion_fault_loses_coordinate :
  (forall value e,
     degrees_of value = Raise e ->
     e = OverflowError \/ e = OtherException ->
     convert_to_degrees value = Raise e) /\
  (forall value e,
     convert_to_degrees value = Raise e ->
     degrees_of value = Raise e /\ (e = OverflowError \/ e = OtherException)) /\
  (forall exif_data gps e,
     exif_data !! "GPSInfo" = Some (PDict gps) ->
     convert_to_degrees (dict_get gps "GPSLatitude") = Raise e \/
     convert_to_degrees (dict_get gps "GPSLongitude") = Raise e ->
     get_gps_info exif_data = (None, None)) /\
  (forall z rest,
     int_to_float z = Raise OverflowError ->
     convert_to_degrees (PTuple (PInt z :: PInt 0 :: PInt 0 :: rest))
     = Raise OverflowError) /\
  (forall truth,
     convert_to_degrees (PObj truth (Raise OtherException)) = Raise OtherException /\
     convert_to_degrees (PObj truth (Raise OverflowError)) = Raise OverflowError).
Proof.
  split; [|split; [|split; [|split]]].
  - intros value e He Hkind. unfold convert_to_degrees. rewrite He.
    by destruct Hkind as [-> | ->].
  - intros value e. unfold convert_to_degrees.
    destruct (degrees_of value) as [x|e']; [done|].
    destruct e'; simpl; try done; intros [= <-]; (split; [done|]);
      first [by left | by right].
  - intros exif_data gps e Hgps Hraise.
    assert (dict_get exif_data "GPSInfo" = PDict gps) as Hg
      by (unfold dict_get; by rewrite Hgps).
    unfold get_gps_info. rewrite Hg.
    destruct (negb (truthy (PDict gps))); [done|].
    cbn [as_dict bind].
    destruct (truthy (dict_get gps "GPSLatitude")); [|done].
    destruct (convert_to_degrees (dict_get gps "GPSLatitude")) as [lat|e1];
      simpl; [|done].
    destruct Hraise as [? | Hlon]; [done|].
    destruct (truthy (dict_get gps "GPSLongitude")); [|done].
    by rewrite Hlon.
  - intros z rest Hz. unfold convert_to_degrees, degrees_of. simpl.
    by rewrite Hz.
  - intros truth. by split.
Qed.

(** ** When the date is unknown *)

Lemma split_head_app c s t :
  PyStr.split_head c (s +:+ String c t) = PyStr.split_head c s.
Proof.
  induction s as [|a s IH]; simpl.
  - by rewrite Ascii.eqb_refl.
  - change (String a s +:+ String c t) with (String a (s +:+ String c t)).
    simpl. destruct (Ascii.eqb a c); [done|]. by rewrite IH.
Qed.

(** X12.  [get_date_taken] returns no date exactly when none of the three
    EXIF tags yields one, the video creation date (if any) matches none of
    the three formats, and the creation time of the file cannot be read.
    As long as the creation time is readable a date is always found. *)
Theorem get_date_taken_none_iff
  (f : media_file) (exif_data : gmap string val) (video_data : gmap string string) :
  get_date_taken f exif_data video_data = None
  <-> (tag_date exif_data "DateTimeOriginal" = None /\
       tag_date exif_data "DateTime" = None /\
       tag_date exif_data "DateTimeDigitized" = None /\
       (forall date_str,
          video_data !! "creation_date" = Some date_str ->
          video_date VIDEO_DATE_FORMATS (PyStr.split_head "." date_str) = None) /\
       creation_time f = None).
Proof.
  assert ((if bool_decide (exif_data = ∅) then None
           else exif_date EXIF_DATE_TAGS exif_data)
          = exif_date EXIF_DATE_TAGS exif_data) as Hexif.
  { case_bool_decide as He; [|done]. subst.
    by rewrite exif_date_tags, !tag_date_empty. }
  assert ((if bool_decide (video_data = ∅) then None
           else match video_data !! "creation_date" with
                | Some date_str =>
                    video_date VIDEO_DATE_FORMATS (PyStr.split_head "." date_str)
                | None => None
                end)
          = match video_data !! "creation_date" with
            | Some date_str =>
                video_date VIDEO_DATE_FORMATS (PyStr.split_head "." date_str)
            | None => None
            end) as Hvideo.
  { destruct (decide (video_data = ∅)) as [->|Hv].
    - rewrite bool_decide_eq_true_2 by done. by rewrite lookup_empty.
    - by rewrite bool_decide_eq_false_2 by done. }
  unfold get_date_taken, get_file_creation_date.
  rewrite Hexif, Hvideo, exif_date_tags.
  destruct (tag_date exif_data "DateTimeOriginal");
    [split; [done | by intros [? _]]|].
  destruct (tag_date exif_data "DateTime");
    [split; [done | by intros (_ & ? & _)]|].
  destruct (tag_date exif_data "DateTimeDigitized");
    [split; [done | by intros (_ & _ & ? & _)]|].
  destruct (video_data !! "creation_date") as [date_str|].
  - destruct (video_date _ _) eqn:Hd.
    + split; [done|]. intros (_ & _ & _ & Hv & _).
      specialize (Hv date_str eq_refl). congruence.
    + split.
      * intros Hc. split_and!; try done. by intros ? [= <-].
      * by intros (_ & _ & _ & _ & ?).
  - split.
    + intros Hc. by split_and!.
    + by intros (_ & _ & _ & _ & ?).
Qed.

(** X13.  Whatever follows the first dot of the video creation date is
    ignored: a date string with a fractional-seconds suffix resolves like
    the same string without it. *)
Theorem video_date_fraction_ignored
  (f : media_file) (exif_data : gmap string val) (video_data : gmap string string)
  (date_str fraction : string) :
  get_date_taken f exif_data
    (<["creation_date" := date_str +:+ "." +:+ fraction]> video_data)
  = get_date_taken f exif_data (<["creation_date" := date_str]> video_data).
Proof.
  unfold get_date_taken.
  rewrite !(bool_decide_eq_false_2 (<["creation_date" := _]> video_data = ∅))
    by apply insert_non_empty.
  rewrite !lookup_insert_eq.
  change (date_str +:+ "." +:+ fraction) with (date_str +:+ String "." fraction).
  by rewrite split_head_app.
Qed.

(** ** The shape of the video metadata *)

Lemma foldl_video_line_shape (all : list string) lines video_data :
  (forall line, line ∈ lines -> line ∈ all) ->
  (video_data = ∅ \/
   exists line date_str,
     line ∈ all /\ line_value line = Some date_str /\
     video_data = {[ "creation_date" := date_str ]}) ->
  foldl video_line video_data lines = ∅ \/
  exists line date_str,
    line ∈ all /\ line_value line = Some date_str /\
    foldl video_line video_data lines = {[ "creation_date" := date_str ]}.
Proof.
  revert video_data. induction lines as [|line lines IH]; intros video_data Hsub Hshape.
  { done. }
  cbn [foldl]. apply IH.
  { intros l Hl. apply Hsub, elem_of_cons. by right. }
  rewrite video_line_value.
  destruct (line_value line) as [date_str|] eqn:Hline; [|done].
  right. exists line, date_str.
  split; [apply Hsub, elem_of_cons; by left|]. split; [done|].
  destruct Hshape as [-> | (l0 & d0 & _ & _ & ->)].
  - apply insert_empty.
  - apply insert_singleton_eq.
Qed.

(** X14.  [get_video_metadata] returns the empty dictionary or a dictionary
    with the single key creation_date, whose value is what follows the first
    ": " in one of the exported lines that mention a date.  Without hachoir,
    and when hachoir fails or finds nothing, the result is empty. *)
Theorem get_video_metadata_shape (f : media_file) :
  (get_video_metadata f = ∅ \/
   exists lines line date_str,
     HACHOIR_SUPPORT = true /\ video_meta f = VideoLines lines /\
     line ∈ lines /\ line_value line = Some date_str /\
     get_video_metadata f = {[ "creation_date" := date_str ]}) /\
  (HACHOIR_SUPPORT = false \/ video_meta f = VideoRaise \/
   video_meta f = VideoNoParser \/ video_meta f = VideoNoMetadata ->
   get_video_metadata f = ∅).
Proof.
  unfold get_video_metadata. split.
  - destruct HACHOIR_SUPPORT; simpl; [|by left].
    destruct (video_meta f) as [| | |lines]; try by left.
    destruct (foldl_video_line_shape lines lines ∅) as [Hempty | Hone];
      [done | by left | by left |].
    destruct Hone as (line & date_str & Hin & Hline & Hres).
    right. by exists lines, line, date_str.
  - intros [-> | [-> | [-> | ->]]]; [done | by destruct HACHOIR_SUPPORT ..].
Qed.

(** ** Place names *)

Lemma no_blank_comma_app a b :
  no_blank_comma (a +:+ b) = no_blank_comma a && no_blank_comma b.
Proof.
  induction a as [|c a IH]; [done|].
  change (String c a +:+ b) with (String c (a +:+ b)).
  simpl. rewrite IH. by rewrite !andb_assoc.
Qed.

Lemma replace_cleans s :
  no_blank_comma (PyStr.replace "," "" (PyStr.replace " " "_" s)) = true.
Proof.
  induction s as [|a s IH]; [done|].
  cbn [PyStr.replace].
  destruct (Ascii.eqb a " ") eqn:Hblank.
  - change ("_" +:+ PyStr.replace " " "_" s)
      with (String "_" (PyStr.replace " " "_" s)).
    cbn [PyStr.replace]. change (Ascii.eqb "_" ",") with false. cbn iota.
    simpl. exact IH.
  - cbn [PyStr.replace].
    destruct (Ascii.eqb a ",") eqn:Hcomma.
    + exact IH.
    + simpl. by rewrite Hblank, Hcomma, IH.
Qed.

Lemma clean_name_clean v s : clean_name v = Ok s -> no_blank_comma s = true.
Proof.
  unfold clean_name. destruct (truthy v).
  - destruct v; try done. intros [= <-]. apply replace_cleans.
  - by intros [= <-].
Qed.

Lemma compose_name_clean reply name :
  compose_name reply = Ok (Some name) -> no_blank_comma name = true.
Proof.
  unfold compose_name. destruct reply as [| |raw]; try done.
  destruct (match raw !! "address" with Some v => as_dict v | None => Ok ∅ end)
    as [address|e]; [|done].
  cbn [bind].
  destruct (clean_name (first_truthy address _)) as [city_name|e] eqn:Hcity; [|done].
  cbn [bind].
  destruct (clean_name (dict_get address "country")) as [country_name|e] eqn:Hcountry;
    [|done].
  cbn [bind]. intros [= <-].
  rewrite !no_blank_comma_app.
  by rewrite (clean_name_clean _ _ Hcity), (clean_name_clean _ _ Hcountry).
Qed.

Lemma cache_lookup_elem key c name :
  cache_lookup key c = Some name -> exists k, (k, name) ∈ c.
Proof.
  induction c as [|[k n] c IH]; simpl; [done|].
  destruct (key_eqb k key).
  - intros [= ->]. exists k. apply elem_of_cons. by left.
  - intros H. destruct (IH H) as [k' Hk']. exists k'. apply elem_of_cons. by right.
Qed.

(** X15.  Location names are safe folder names as far as blanks and commas
    go: when no name in the geocode cache contains a blank or a comma, the
    name [get_location_name] returns contains none either, and the same
    holds of the cache afterwards. *)
Theorem location_names_have_no_blank_or_comma
  (lat lon : option float) (w : world) :
  Forall (fun entry => no_blank_comma entry.2 = true) (location_cache w) ->
  no_blank_comma (get_location_name lat lon w).1 = true /\
  Forall (fun entry => no_blank_comma entry.2 = true)
         (location_cache (get_location_name lat lon w).2).
Proof.
  intros Hcache. unfold get_location_name.
  destruct (negb (truthy_float lat) || negb (truthy_float lon)); [done|].
  destruct lat as [la|], lon as [lo|]; try done.
  destruct (cache_lookup _ _) as [name|] eqn:Hlookup.
  - split; [|done]. apply cache_lookup_elem in Hlookup as [k Hk].
    by apply (proj1 (Forall_forall _ _) Hcache) in Hk.
  - assert (forall name, no_blank_comma name = true ->
              Forall (fun entry => no_blank_comma entry.2 = true)
                (cache_store (round3 la, round3 lo) name (location_cache w))) as Hstore.
    { intros name Hclean. rewrite (cache_store_miss _ _ _ Hlookup).
      apply Forall_app. split; [done|]. by constructor. }
    destruct (compose_name _) as [[name|]|e] eqn:Hname; simpl.
    + apply compose_name_clean in Hname. split; [done | by apply Hstore].
    + split; [done | by apply Hstore].
    + split; [done | by apply Hstore].
Qed.

(** X16.  Asking again gives the same answer: after a lookup of a present
    coordinate whose rounded key equals itself (it is not NaN), the same
    lookup returns the same name and changes nothing, whatever the geocoder
    would answer now. *)
Theorem repeated_lookup_is_stable (la lo : float) (w : world) :
  truthy_float (Some la) = true ->
  truthy_float (Some lo) = true ->
  key_eqb (cache_key (la, lo)) (cache_key (la, lo)) = true ->
  get_location_name (Some la) (Some lo) (get_location_name (Some la) (Some lo) w).2
  = get_location_name (Some la) (Some lo) w.
Proof.
  intros Hla Hlo Hrefl.
  assert (forall w0 name,
            cache_lookup (cache_key (la, lo)) (location_cache w0) = Some name ->
            get_location_name (Some la) (Some lo) w0 = (name, w0)) as Hhit.
  { intros w0 name H. unfold get_location_name. rewrite Hla, Hlo. simpl.
    change (round3 la, round3 lo) with (cache_key (la, lo)). by rewrite H. }
  destruct (cache_lookup (cache_key (la, lo)) (location_cache w)) as [name|] eqn:Hlookup.
  { rewrite (Hhit w name Hlookup). simpl. by apply Hhit. }
  assert (exists name w1,
            get_location_name (Some la) (Some lo) w = (name, w1) /\
            location_cache w1
            = (location_cache w ++ [(cache_key (la, lo), name)])%list)
    as (name & w1 & -> & Hc).
  { unfold get_location_name. rewrite Hla, Hlo. simpl.
    change (round3 la, round3 lo) with (cache_key (la, lo)). rewrite Hlookup.
    destruct (compose_name _) as [[name|]|e]; eexists _, _; (split; [done|]);
      simpl; by rewrite (cache_store_miss _ _ _ Hlookup). }
  simpl. apply Hhit. rewrite Hc, cache_lookup_app, Hlookup. simpl. by rewrite Hrefl.
Qed.

(** X17.  An answer without an address, or with an address that has none of
    the place fields and no country, is not a failure: the name composed is
    "Unknown_Unknown", not the sentinel "Unknown_Location", and that is what
    a lookup that receives such an answer returns. *)
Theorem unnamed_place_is_unknown_unknown :
  (forall raw,
     raw !! "address" = None ->
     compose_name (GeoLocation raw) = Ok (Some "Unknown_Unknown")) /\
  (forall raw address,
     raw !! "address" = Some (PDict address) ->
     (forall k, k ∈ ["city"; "town"; "village"; "suburb"; "neighbourhood";
                     "county"; "state"; "country"] ->
                truthy (dict_get address k) = false) ->
     compose_name (GeoLocation raw) = Ok (Some "Unknown_Unknown")) /\
  (forall la lo w raw,
     truthy_float (Some la) = true ->
     truthy_float (Some lo) = true ->
     cache_lookup (cache_key (la, lo)) (location_cache w) = None ->
     geolocator_reverse (length (geocode_requests (trace w))) la lo = GeoLocation raw ->
     raw !! "address" = None ->
     (get_location_name (Some la) (Some lo) w).1 = "Unknown_Unknown").
Proof.
  assert (forall raw,
            raw !! "address" = None ->
            compose_name (GeoLocation raw) = Ok (Some "Unknown_Unknown")) as Hbare.
  { intros raw Hraw. unfold compose_name. rewrite Hraw. by vm_compute. }
  split; [exact Hbare|]. split.
  - intros raw address Hraw Hnone. unfold compose_name. rewrite Hraw.
    cbn [as_dict bind first_truthy].
    assert (forall k, k ∈ ["city"; "town"; "village"; "suburb"; "neighbourhood";
                           "county"; "state"; "country"] ->
                      clean_name (dict_get address k) = Ok "Unknown") as Hclean.
    { intros k Hk. unfold clean_name. by rewrite (Hnone k Hk). }
    rewrite !Hnone by (repeat (first [apply list_elem_of_here | apply list_elem_of_further])).
    rewrite !Hclean by (repeat (first [apply list_elem_of_here | apply list_elem_of_further])).
    done.
  - intros la lo w raw Hla Hlo Hmiss Hreply Hraw.
    unfold get_location_name. rewrite Hla, Hlo. simpl.
    change (round3 la, round3 lo) with (cache_key (la, lo)).
    by rewrite Hmiss, Hreply, (Hbare raw Hraw).
Qed.

(** ** Keys that are not numbers *)

Lemma eqb_nan_r k x : (x =? x)%float = false -> (k =? x)%float = false.
Proof.
  rewrite !FloatAxioms.eqb_spec. intros Hx. apply SFeqb_refl_false in Hx. rewrite Hx.
  unfold SFeqb, SFcompare. by destruct (Prim2SF k) as [[]|[]| |[]].
Qed.

Lemma cache_lookup_nan key c :
  (key.1 =? key.1)%float = false \/ (key.2 =? key.2)%float = false ->
  cache_lookup key c = None.
Proof.
  intros Hnan. induction c as [|[k name] c IH]; simpl; [done|].
  assert (key_eqb k key = false) as ->; [|done].
  unfold key_eqb. destruct Hnan as [H | H].
  - by rewrite (eqb_nan_r _ _ H).
  - by rewrite (eqb_nan_r _ _ H), andb_false_r.
Qed.

(** X19.  A rounded coordinate with a NaN component is never found in the
    cache, because NaN differs from itself: every lookup of such a
    coordinate calls the geocoder, also right after a lookup of the same
    coordinate, and appends one more entry to the cache. *)
Theorem nan_key_is_never_cached (la lo : float) (w : world) :
  truthy_float (Some la) = true ->
  truthy_float (Some lo) = true ->
  (round3 la =? round3 la)%float = false \/ (round3 lo =? round3 lo)%float = false ->
  (exists name,
     location_cache (get_location_name (Some la) (Some lo) w).2
       = (location_cache w ++ [(cache_key (la, lo), name)])%list /\
     geocode_requests (trace (get_location_name (Some la) (Some lo) w).2)
       = (la, lo) :: geocode_requests (trace w)) /\
  geocode_requests
    (trace (lookup_all [(Some la, Some lo); (Some la, Some lo)] w))
  = (la, lo) :: (la, lo) :: geocode_requests (trace w).
Proof.
  intros Hla Hlo Hnan.
  assert (forall w0, cache_lookup (cache_key (la, lo)) (location_cache w0) = None) as Hmiss
    by (intros w0; by apply cache_lookup_nan).
  split; [by apply get_location_name_miss|].
  unfold lookup_all. simpl.
  destruct (get_location_name_miss la lo w Hla Hlo (Hmiss w)) as (name1 & _ & Hr1).
  destruct (get_location_name_miss la lo _ Hla Hlo
              (Hmiss (get_location_name (Some la) (Some lo) w).2)) as (name2 & _ & Hr2).
  by rewrite Hr2, Hr1.
Qed.

(** ** Videos and the layout of the output *)

Lemma video_extension_dispatch ext :
  ext ∈ VIDEO_EXTENSIONS ->
  bool_decide (ext ∈ PHOTO_EXTENSIONS) || bool_decide (ext ∈ IPHONE_EXTENSIONS) = false /\
  bool_decide (ext ∈ VIDEO_EXTENSIONS) = true.
Proof.
  intros H. split; [|by apply bool_decide_eq_true_2].
  unfold VIDEO_EXTENSIONS in H.
  repeat (apply elem_of_cons in H as [-> | H]; [by vm_compute|]).
  by apply elem_of_nil in H.
Qed.

(** X20.  A file with a video extension is never geolocated: only the video
    metadata is read, no EXIF and hence no GPS tags; unless it is a
    duplicate it is placed below "Unknown_Location" in the folders of the
    date resolved from the video metadata or the creation time, and the
    geocode cache and the requests stay as they were. *)
Theorem video_lands_in_unknown_location
  (f : media_file) (output_dir : string) (move_files : bool) (w : world) :
  PyStr.lower (PyStr.path_suffix (file_name f)) ∈ VIDEO_EXTENSIONS ->
  extract_metadata f w = (∅, get_video_metadata f, log (EVideo (file_path f)) w) /\
  (process_file f output_dir move_files w = (false, w) \/
   exists w0,
     same_geo w w0 /\
     process_file f output_dir move_files w
     = place_file f move_files
         (PyStr.join (PyStr.join (PyStr.join output_dir
            (year_folder (get_date_taken f ∅ (get_video_metadata f))))
            (month_folder (get_date_taken f ∅ (get_video_metadata f))))
            "Unknown_Location") w0).
Proof.
  intros Hvideo.
  destruct (video_extension_dispatch _ Hvideo) as [Hphoto Hv].
  assert (forall w0, extract_metadata f w0
                     = (∅, get_video_metadata f, log (EVideo (file_path f)) w0)) as Hmeta.
  { intros w0. unfold extract_metadata. by rewrite Hphoto, Hv. }
  split; [apply Hmeta|].
  assert (forall w0, same_geo w w0 ->
            exists w1, same_geo w w1 /\
              organize_file f output_dir move_files w0
              = place_file f move_files
                  (PyStr.join (PyStr.join (PyStr.join output_dir
                     (year_folder (get_date_taken f ∅ (get_video_metadata f))))
                     (month_folder (get_date_taken f ∅ (get_video_metadata f))))
                     "Unknown_Location") w1) as Horg.
  { intros w0 [Hc Hr]. unfold organize_file. rewrite Hmeta.
    rewrite (bool_decide_eq_true_2 ((∅ : gmap string val) = ∅)) by done.
    exists (log (EVideo (file_path f)) w0). by split. }
  unfold process_file.
  destruct (calculate_file_hash f) as [digest|].
  - destruct (negb (digest =? "")%string && _); [by left|].
    right. apply Horg. by destruct (negb _).
  - right. apply Horg, same_geo_refl.
Qed.

(** X21.  Every path [process_file] writes has the layout
    [output_dir/year/month/location/leaf]: year and month are those of the
    resolved date (or the Unknown placeholders), and the leaf is the name of
    the source file or that name with [_N], N >= 1, before the extension. *)
Theorem written_path_layout
  (f : media_file) (output_dir : string) (move_files : bool) (w : world) :
  (process_file f output_dir move_files w).1 = true ->
  exists location leaf,
    written_paths (trace (process_file f output_dir move_files w).2)
    = PyStr.join
        (PyStr.join (PyStr.join (PyStr.join output_dir
           (year_folder (get_date_taken f (extract_metadata f w).1.1
                           (extract_metadata f w).1.2)))
           (month_folder (get_date_taken f (extract_metadata f w).1.1
                            (extract_metadata f w).1.2)))
           location) leaf
      :: written_paths (trace w) /\
    (leaf = file_name f \/
     exists n, 1 <= n /\
       leaf = PyStr.path_stem (file_name f) +:+ "_" +:+ pretty n
              +:+ PyStr.path_suffix (file_name f)).
Proof.
  destruct (process_file_gate f output_dir move_files w)
    as [[_ ->] | [_ (w0 & _ & Htr & _ & ->)]]; [done|].
  intros Hok.
  destruct (organize_file_stages f output_dir move_files w0)
    as (location & w1 & (_ & _ & Hw1) & Heq).
  rewrite (extract_metadata_tags f w0 w) in Heq. rewrite Heq in Hok |- *.
  set (folder := PyStr.join (PyStr.join (PyStr.join output_dir _) _) location) in *.
  destruct (place_file_spec f move_files folder w1) as (dest_file & Hdest & _ & Hplace).
  rewrite Hplace in Hok |- *.
  destruct (write_fault f); [done|]. cbn [snd].
  rewrite written_paths_write_file, Hw1, Htr.
  unfold destination_file in Hdest.
  apply free_name_sound in Hdest as [_ [-> | [_ (n & Hn & -> & _)]]].
  - exists location, (file_name f). split; [done | by left].
  - exists location, (PyStr.path_stem (file_name f) +:+ "_" +:+ pretty n
                      +:+ PyStr.path_suffix (file_name f)).
    split; [done|]. right. by exists n.
Qed.

End Pipeline.

(** ** The pipeline on the sample data *)

Lemma hexdigest_nonempty content : Ref.hexdigest content <> "".
Proof.
  unfold Ref.hexdigest.
  destruct (pretty _) as [|a n]; [by vm_compute|done].
Qed.

Lemma duplicate_digest_skipped_witness :
  (process_file Ref.strptime Ref.float_of_str Ref.round3 Ref.hexdigest Sample.geocoder true
     (Sample.plain_file "b.jpg" Sample.content_a) "out" false
     (process_file Ref.strptime Ref.float_of_str Ref.round3 Ref.hexdigest Sample.geocoder true
        (Sample.plain_file "a.jpg" Sample.content_a) "out" false Sample.fresh_world).2).1
  = false /\
  (organize_media Ref.strptime Ref.float_of_str Ref.round3 Ref.hexdigest Sample.geocoder true
     [Sample.plain_file "a.jpg" Sample.content_a; Sample.plain_file "b.jpg" Sample.content_a]
     "out" false Sample.fresh_world).1 = 1.
Proof.
  destruct (duplicate_digest_skipped Ref.strptime Ref.float_of_str Ref.round3 Ref.hexdigest
              Sample.geocoder true
              (Sample.plain_file "a.jpg" Sample.content_a)
              (Sample.plain_file "b.jpg" Sample.content_a) [] "out" false Sample.fresh_world
              hexdigest_nonempty eq_refl eq_refl eq_refl) as [Hskip Hone].
  split.
  - exact (f_equal fst Hskip).
  - destruct Hone as (dest_file & w' & Hrun & _).
    + by vm_compute.
    + by vm_compute.
    + apply not_elem_of_empty.
    + reflexivity.
    + exact (f_equal fst Hrun).
Defined.

Lemma hash_failure_bypasses_gate_witness :
  let seen :=
    (process_file Ref.strptime Ref.float_of_str Ref.round3 Ref.hexdigest Sample.geocoder true
       (Sample.plain_file "a.jpg" Sample.content_a) "out" false Sample.fresh_world).2 in
  Ref.hexdigest Sample.content_a ∈ processed_files seen /\
  (process_file Ref.strptime Ref.float_of_str Ref.round3 Ref.hexdigest Sample.geocoder true
     (Sample.unreadable_file "b.jpg" Sample.content_a) "out" false seen).1 = true.
Proof.
  split.
  - by vm_compute.
  - exact (proj1 (proj2 (proj2
      (hash_failure_bypasses_gate Ref.strptime Ref.float_of_str Ref.round3 Ref.hexdigest
         Sample.geocoder true (Sample.unreadable_file "b.jpg" Sample.content_a) "out" false
         _ eq_refl)) eq_refl)).
Defined.

Lemma destination_collision_free_witness :
  destination_file {[ "out/img.jpg" := Sample.content_a ]} "out" "img.jpg"
  = Some "out/img_1.jpg" /\
  destination_file
    (<["out/img_1.jpg" := Sample.content_a]> {[ "out/img.jpg" := Sample.content_a ]})
    "out" "img.jpg"
  = Some "out/img_2.jpg" /\
  written_paths (trace
    (organize_media Ref.strptime Ref.float_of_str Ref.round3 Ref.hexdigest Sample.geocoder true
       Sample.img_files "out" false Sample.fresh_world).2)
  = ["out/2021/03-March/Unknown_Location/img_2.jpg";
     "out/2021/03-March/Unknown_Location/img_1.jpg";
     "out/2021/03-March/Unknown_Location/img.jpg"].
Proof.
  pose proof (proj2 (proj2
    (destination_collision_free Ref.strptime Ref.float_of_str Ref.round3 Ref.hexdigest
       Sample.geocoder true))) as Himg.
  split; [|split].
  - refine (proj1 (Himg {[ "out/img.jpg" := Sample.content_a ]} "out" _) _).
    + exists Sample.content_a. by vm_compute.
    + by vm_compute.
  - refine (proj2 (Himg (<["out/img_1.jpg" := Sample.content_a]>
                           {[ "out/img.jpg" := Sample.content_a ]}) "out" _) _ _).
    + exists Sample.content_a. by vm_compute.
    + exists Sample.content_a. by vm_compute.
    + by vm_compute.
  - by vm_compute.
Defined.

(** The claim C2 puts the digitized tag before the generic one; the code
    returns the generic value. *)
Lemma generic_tag_precedes_digitized :
  tag_date Ref.strptime Sample.exif_generic_digitized "DateTime"
  = Some Sample.generic_date /\
  tag_date Ref.strptime Sample.exif_generic_digitized "DateTimeDigitized"
  = Some Sample.digitized_date /\
  get_date_taken Ref.strptime (Sample.plain_file "a.jpg" Sample.content_a)
    Sample.exif_generic_digitized ∅
  = Some Sample.generic_date /\
  Sample.generic_date <> Sample.digitized_date.
Proof. repeat split; by vm_compute. Qed.

Lemma exif_date_order_witness :
  get_date_taken Ref.strptime (Sample.plain_file "a.jpg" Sample.content_a)
    Sample.exif_three_dates ∅
  = Some Sample.original_date /\
  get_date_taken Ref.strptime (Sample.plain_file "a.jpg" Sample.content_a)
    Sample.exif_generic_digitized ∅
  = Some Sample.generic_date.
Proof.
  split.
  - apply (proj1 (proj2 (exif_date_order Ref.strptime
             (Sample.plain_file "a.jpg" Sample.content_a) Sample.exif_three_dates ∅))).
    by vm_compute.
  - apply (proj2 (proj2 (exif_date_order Ref.strptime
             (Sample.plain_file "a.jpg" Sample.content_a) Sample.exif_generic_digitized ∅))
             Sample.generic_date Sample.digitized_date); by vm_compute.
Defined.

(** The claim C3 sends a file without metadata to Unknown_Year/Unknown_Month;
    the code uses the year and month of its creation time. *)
Lemma undated_file_goes_to_creation_year :
  get_exif_data (Sample.plain_file "a.jpg" Sample.content_a) = ∅ /\
  dest_tree
    (process_file Ref.strptime Ref.float_of_str Ref.round3 Ref.hexdigest Sample.geocoder true
       (Sample.plain_file "a.jpg" Sample.content_a) "out" false Sample.fresh_world).2
  !! "out/2021/03-March/Unknown_Location/a.jpg" = Some Sample.content_a /\
  dest_tree
    (process_file Ref.strptime Ref.float_of_str Ref.round3 Ref.hexdigest Sample.geocoder true
       (Sample.plain_file "a.jpg" Sample.content_a) "out" false Sample.fresh_world).2
  !! "out/Unknown_Year/Unknown_Month/Unknown_Location/a.jpg" = None.
Proof. repeat split; by vm_compute. Qed.

Lemma missing_metadata_routing_witness :
  (process_file Ref.strptime Ref.float_of_str Ref.round3 Ref.hexdigest Sample.geocoder true
     (Sample.plain_file "a.jpg" Sample.content_a) "out" false Sample.fresh_world).1 = true /\
  destination_file ∅ "out/2021/03-March/Unknown_Location" "a.jpg"
  = Some "out/2021/03-March/Unknown_Location/a.jpg".
Proof.
  destruct (missing_metadata_routing Ref.strptime Ref.float_of_str Ref.round3 Ref.hexdigest
              Sample.geocoder true (Sample.plain_file "a.jpg" Sample.content_a)
              "out" false Sample.fresh_world eq_refl eq_refl eq_refl
              (fun digest _ => not_elem_of_empty digest))
    as [(dest_file & Hdest & Hbare & Hok & _) _].
  split; [exact Hok|].
  rewrite (Hbare eq_refl) in Hdest. exact Hdest.
Defined.

(** The claim C7 takes the first matching line; the code keeps the last. *)
Lemma last_date_line_wins :
  head (omap line_value Sample.video_lines) = Some "2020-01-01 10:00:00" /\
  get_video_metadata true Sample.video_file !! "creation_date"
  = Some "2019-05-05 08:00:00".
Proof. split; by vm_compute. Qed.

Lemma video_creation_date_last_match_witness :
  get_video_metadata true Sample.video_file !! "creation_date"
  = last (omap line_value Sample.video_lines) /\
  last (omap line_value Sample.video_lines) = Some "2019-05-05 08:00:00".
Proof.
  split.
  - exact (video_creation_date_last_match true Sample.video_file Sample.video_lines
             eq_refl eq_refl).
  - by vm_compute.
Defined.

Lemma gps_decoding_witness :
  get_gps_info Ref.float_of_str Sample.exif_south_east = (Some (-10)%float, Some 20%float).
Proof.
  apply (proj1 (proj2 (proj2 (gps_decoding Ref.float_of_str)))
           Sample.exif_south_east Sample.gps_south_east
           (PTuple [PInt 10; PInt 0; PInt 0]) (PTuple [PInt 20; PInt 0; PInt 0])
           10%float 20%float); by vm_compute.
Defined.




Lemma zero_coordinate_is_unknown_witness :
  get_location_name Ref.round3 Sample.geocoder (Some 0%float) (Some 20%float)
    Sample.fresh_world
  = ("Unknown_Location", Sample.fresh_world) /\
  get_gps_info Ref.float_of_str (get_exif_data Sample.equator_photo)
  = (Some 0%float, Some 20%float) /\
  written_paths (trace
    (process_file Ref.strptime Ref.float_of_str Ref.round3 Ref.hexdigest Sample.geocoder true
       Sample.equator_photo "out" false Sample.fresh_world).2)
  = ["out/2021/03-March/Unknown_Location/equator.jpg"].
Proof.
  split; [|split].
  - apply (zero_coordinate_is_unknown Ref.strptime Ref.float_of_str Ref.round3 Ref.hexdigest
             Sample.geocoder true 0%float 20%float (or_introl eq_refl)).
  - by vm_compute.
  - by vm_compute.
Defined.

(** ** Further evaluations on the sample data *)

Lemma failed_write_blocks_duplicate_witness :
  (organize_media Ref.strptime Ref.float_of_str Ref.round3 Ref.hexdigest Sample.geocoder true
     [SampleMore.unwritable_file "a.jpg" Sample.content_a;
      Sample.plain_file "b.jpg" Sample.content_a] "out" false Sample.fresh_world).1 = 0 /\
  dest_tree
    (organize_media Ref.strptime Ref.float_of_str Ref.round3 Ref.hexdigest Sample.geocoder true
       [SampleMore.unwritable_file "a.jpg" Sample.content_a;
        Sample.plain_file "b.jpg" Sample.content_a] "out" false Sample.fresh_world).2 = ∅ /\
  (organize_media Ref.strptime Ref.float_of_str Ref.round3 Ref.hexdigest Sample.geocoder true
     [SampleMore.truncated_file "a.jpg" Sample.content_a 2;
      Sample.plain_file "b.jpg" Sample.content_a] "out" false Sample.fresh_world).1 = 0 /\
  dest_tree
    (organize_media Ref.strptime Ref.float_of_str Ref.round3 Ref.hexdigest Sample.geocoder true
       [SampleMore.truncated_file "a.jpg" Sample.content_a 2;
        Sample.plain_file "b.jpg" Sample.content_a] "out" false Sample.fresh_world).2
  = {[ "out/2021/03-March/Unknown_Location/a.jpg" := [Byte.x01; Byte.x02] ]}.
Proof.
  pose proof (failed_write_blocks_duplicate Ref.strptime Ref.float_of_str Ref.round3
                Ref.hexdigest Sample.geocoder true
                (SampleMore.unwritable_file "a.jpg" Sample.content_a)
                (Sample.plain_file "b.jpg" Sample.content_a) "out" false Sample.fresh_world
                hexdigest_nonempty eq_refl eq_refl eq_refl eq_refl eq_refl eq_refl)
    as (_ & Hcount & _ & _ & _ & Htree).
  pose proof (failed_write_blocks_duplicate Ref.strptime Ref.float_of_str Ref.round3
                Ref.hexdigest Sample.geocoder true
                (SampleMore.truncated_file "a.jpg" Sample.content_a 2)
                (Sample.plain_file "b.jpg" Sample.content_a) "out" false Sample.fresh_world
                hexdigest_nonempty eq_refl eq_refl eq_refl eq_refl eq_refl eq_refl)
    as (_ & Hcount' & _).
  split; [exact Hcount|]. split; [exact (Htree eq_refl)|]. split; [exact Hcount'|].
  by vm_compute.
Defined.

Lemma distinct_digests_both_written_witness :
  (organize_media Ref.strptime Ref.float_of_str Ref.round3 Ref.hexdigest Sample.geocoder true
     [Sample.img_file "a" Sample.content_a; Sample.img_file "b" SampleMore.content_b]
     "out" false Sample.fresh_world).1 = 2.
Proof.
  assert (Ref.hexdigest Sample.content_a <> Ref.hexdigest SampleMore.content_b) as Hdiff
    by (by vm_compute).
  destruct (distinct_digests_both_written Ref.strptime Ref.float_of_str Ref.round3
              Ref.hexdigest Sample.geocoder true
              (Sample.img_file "a" Sample.content_a)
              (Sample.img_file "b" SampleMore.content_b) "out" false Sample.fresh_world
              hexdigest_nonempty eq_refl eq_refl Hdiff
              (not_elem_of_empty _) (not_elem_of_empty _)
              eq_refl eq_refl eq_refl eq_refl)
    as (dest1 & dest2 & _ & Hcount & _).
  exact Hcount.
Defined.

Lemma organize_media_touches_supported_only_witness :
  organize_media Ref.strptime Ref.float_of_str Ref.round3 Ref.hexdigest Sample.geocoder true
    [Sample.plain_file "notes.txt" Sample.content_a; Sample.plain_file ".jpg" Sample.content_a]
    "out" false Sample.fresh_world
  = (0, Sample.fresh_world).
Proof.
  apply (proj2 (organize_media_touches_supported_only Ref.strptime Ref.float_of_str
                  Ref.round3 Ref.hexdigest Sample.geocoder true _ "out" false
                  Sample.fresh_world)).
  intros f Hf.
  apply elem_of_cons in Hf as [-> | Hf]; [by vm_compute|].
  apply list_elem_of_singleton in Hf as ->. by vm_compute.
Defined.

Lemma is_supported_file_ignores_case_witness :
  is_supported_file (Sample.plain_file "IMG_0001.JPG" Sample.content_a)
  = is_supported_file (Sample.plain_file "img_0001.jpg" Sample.content_a) /\
  is_supported_file (Sample.plain_file "img_0001.jpg" Sample.content_a) = true.
Proof.
  split; [|by vm_compute].
  exact (is_supported_file_ignores_case
           (Sample.plain_file "IMG_0001.JPG" Sample.content_a)
           (Sample.plain_file "img_0001.jpg" Sample.content_a) eq_refl).
Defined.

Lemma renamed_file_keeps_extension_witness :
  PyStr.path_suffix "holiday.2021_3.jpeg" = ".jpeg" /\
  PyStr.path_stem "holiday.2021_3.jpeg" = "holiday.2021_3".
Proof.
  refine (proj2 renamed_file_keeps_extension "holiday.2021.jpeg" 3 _).
  by vm_compute.
Defined.

Lemma get_gps_info_all_or_nothing_witness :
  get_gps_info Ref.float_of_str SampleMore.exif_zero_latitude = (None, None).
Proof.
  exact (proj2 (proj2 (get_gps_info_all_or_nothing Ref.float_of_str))
           SampleMore.exif_zero_latitude SampleMore.gps_zero_latitude
           eq_refl (or_introl eq_refl)).
Defined.

Lemma uncaught_conversion_fault_loses_coordinate_witness :
  convert_to_degrees Ref.float_of_str (PTuple [PInt (2 ^ 1024); PInt 0; PInt 0])
  = Raise OverflowError /\
  get_gps_info Ref.float_of_str SampleMore.exif_huge_latitude = (None, None) /\
  get_gps_info Ref.float_of_str SampleMore.exif_broken_latitude = (None, None).
Proof.
  pose proof (uncaught_conversion_fault_loses_coordinate Ref.float_of_str)
    as (Hpass & _ & Hlost & Hhuge & _).
  split; [|split].
  - apply Hhuge. by vm_compute.
  - apply (Hlost SampleMore.exif_huge_latitude SampleMore.gps_huge_latitude OverflowError).
    + by vm_compute.
    + left. by vm_compute.
  - apply (Hlost SampleMore.exif_broken_latitude SampleMore.gps_broken_latitude
             OtherException).
    + by vm_compute.
    + left. apply Hpass; [by vm_compute | by right].
Defined.

Lemma location_names_have_no_blank_or_comma_witness :
  (get_location_name Ref.round3 SampleMore.fickle_geocoder
     (Some 48.65%float) (Some (-2.01)%float) Sample.fresh_world).1
  = "Saint_Malo_France" /\
  no_blank_comma
    (get_location_name Ref.round3 SampleMore.fickle_geocoder
       (Some 48.65%float) (Some (-2.01)%float) Sample.fresh_world).1 = true.
Proof.
  split; [by vm_compute|].
  apply (location_names_have_no_blank_or_comma Ref.round3 SampleMore.fickle_geocoder).
  apply Forall_nil_2.
Defined.

Lemma repeated_lookup_is_stable_witness :
  get_location_name Ref.round3 SampleMore.fickle_geocoder
    (Some 48.65%float) (Some (-2.01)%float)
    (get_location_name Ref.round3 SampleMore.fickle_geocoder
       (Some 48.65%float) (Some (-2.01)%float) Sample.fresh_world).2
  = get_location_name Ref.round3 SampleMore.fickle_geocoder
      (Some 48.65%float) (Some (-2.01)%float) Sample.fresh_world.
Proof.
  apply repeated_lookup_is_stable; by vm_compute.
Defined.

Lemma unnamed_place_is_unknown_unknown_witness :
  (get_location_name Ref.round3 SampleMore.bare_geocoder
     (Some 48.65%float) (Some (-2.01)%float) Sample.fresh_world).1
  = "Unknown_Unknown".
Proof.
  apply (proj2 (proj2 (unnamed_place_is_unknown_unknown Ref.round3 SampleMore.bare_geocoder))
           48.65%float (-2.01)%float Sample.fresh_world
           {[ "display_name" := PStr "somewhere" ]}); by vm_compute.
Defined.

Lemma nan_key_is_never_cached_witness :
  geocode_requests
    (trace (lookup_all Ref.round3 Sample.geocoder
              [(Some nan, Some 20%float); (Some nan, Some 20%float)] Sample.fresh_world))
  = [(nan, 20%float); (nan, 20%float)].
Proof.
  apply (nan_key_is_never_cached Ref.round3 Sample.geocoder nan 20%float Sample.fresh_world);
    [by vm_compute | by vm_compute | left; by vm_compute].
Defined.

Lemma video_lands_in_unknown_location_witness :
  extract_metadata true Sample.video_file Sample.fresh_world
  = (∅, get_video_metadata true Sample.video_file,
     log (EVideo (file_path Sample.video_file)) Sample.fresh_world).
Proof.
  apply (video_lands_in_unknown_location Ref.strptime Ref.float_of_str Ref.round3
           Ref.hexdigest Sample.geocoder true Sample.video_file "out" false
           Sample.fresh_world).
  apply (bool_decide_unpack _). by vm_compute.
Defined.

Lemma written_path_layout_witness :
  exists location leaf,
    written_paths (trace
      (process_file Ref.strptime Ref.float_of_str Ref.round3 Ref.hexdigest Sample.geocoder
         true (Sample.plain_file "a.jpg" Sample.content_a) "out" false Sample.fresh_world).2)
    = [PyStr.join (PyStr.join "out/2021/03-March" location) leaf] /\
    (leaf = "a.jpg" \/
     exists n, 1 <= n /\ leaf = "a" +:+ "_" +:+ pretty n +:+ ".jpg").
Proof.
  exact (written_path_layout Ref.strptime Ref.float_of_str Ref.round3 Ref.hexdigest
           Sample.geocoder true (Sample.plain_file "a.jpg" Sample.content_a)
           "out" false Sample.fresh_world eq_refl).
Defined.
